(** * prompt_plugin: the enhancement pipeline, the template registry, the
    history store and the engine that ties them together.

    Python values are embedded as follows.
    - [str] is a sequence of Unicode code points, [list N].
    - [int] is [Z].
    - [str | None] and the other optional fields are [option].
    - exceptions are the [Raise] alternative of [except].
    - the dictionary handed to [render_template] is a [gmap] from names to
      Python objects, since the engine feeds it whatever [json.loads] built.
    Two functions of the Python runtime have no finite description here and
    are taken from a [PyRuntime] record: [str.lower] (full Unicode case
    mapping) and [json.loads]. *)

From Stdlib Require Import ZArith NArith List Bool Lia Sorted.
From Stdlib Require Import Ascii String.
From stdpp Require Import base option list countable gmap sorting.

Import ListNotations.
Local Open Scope list_scope.

(** ** Python strings *)

Module PyStr.

Definition char := N.
Definition str := list char.

(** A source literal made of ASCII characters only. *)
Definition py (s : string) : str := map N_of_ascii (list_ascii_of_string s).

(** [Py_UNICODE_ISSPACE]: the characters [str.split()] and [str.strip()]
    treat as whitespace. *)
Definition isspace (c : char) : bool :=
  ((9 <=? c) && (c <=? 13) || (28 <=? c) && (c <=? 32)
   || (c =? 133) || (c =? 160) || (c =? 5760)
   || (8192 <=? c) && (c <=? 8202)
   || (c =? 8232) || (c =? 8233) || (c =? 8239) || (c =? 8287)
   || (c =? 12288))%N.

Fixpoint lstrip (s : str) : str :=
  match s with
  | c :: s' => if isspace c then lstrip s' else s
  | [] => []
  end.

Definition rstrip (s : str) : str := rev (lstrip (rev s)).

(** [s.strip()] *)
Definition strip (s : str) : str := rstrip (lstrip s).

(** [s.split()]: the maximal runs of non-whitespace characters, in order.
    [cur] holds the characters of the word being read, last one first. *)
Fixpoint split_from (cur : str) (s : str) : list str :=
  match s with
  | [] => match cur with [] => [] | _ => [rev cur] end
  | c :: s' =>
      if isspace c
      then match cur with
           | [] => split_from [] s'
           | _ => rev cur :: split_from [] s'
           end
      else split_from (c :: cur) s'
  end.

Definition split (s : str) : list str := split_from [] s.

Fixpoint startswith (p s : str) : bool :=
  match p, s with
  | [], _ => true
  | _ :: _, [] => false
  | a :: p', b :: s' => (a =? b)%N && startswith p' s'
  end.

(** [sub in s] *)
Fixpoint contains (sub s : str) : bool :=
  startswith sub s ||
  match s with
  | [] => false
  | _ :: s' => contains sub s'
  end.

(** [s.replace(old, new)] for a non-empty [old]: scan from the left, and at
    each match emit [new] and jump over the matched text.  [skip] counts the
    characters of the current match that are still to be jumped over. *)
Fixpoint replace_scan (old new : str) (skip : nat) (s : str) : str :=
  match s with
  | [] => []
  | c :: s' =>
      match skip with
      | S k => replace_scan old new k s'
      | O =>
          if startswith old s
          then new ++ replace_scan old new (length old - 1) s'
          else c :: replace_scan old new 0 s'
      end
  end.

(** [s.replace(old, new)]; with an empty [old] Python puts [new] before
    every character and at the end. *)
Definition replace (old new s : str) : str :=
  match old with
  | [] => new ++ flat_map (fun c => c :: new) s
  | _ :: _ => replace_scan old new 0 s
  end.

End PyStr.

Export PyStr.

(** ** models.py *)

Inductive Tone :=
  professional | casual | technical | creative | academic | friendly.

Inductive TaskCategory :=
  coding | writing | analysis | brainstorming | summarization
  | translation | debugging | explanation | general.

#[global] Instance Tone_eq_dec : EqDecision Tone.
Proof. solve_decision. Defined.

#[global] Instance TaskCategory_eq_dec : EqDecision TaskCategory.
Proof. solve_decision. Defined.

(** Iteration order of the [TaskCategory] enumeration. *)
Definition all_categories : list TaskCategory :=
  [coding; writing; analysis; brainstorming; summarization;
   translation; debugging; explanation; general].

(** ** Exceptions and the values [json.loads] can build *)

Inductive exn :=
  | JSONDecodeError
  | TypeError
  | AttributeError
  | RecursionError
  | ValueError (msg : str).

Inductive except (A : Type) :=
  | Return (a : A)
  | Raise (e : exn).

Arguments Return {A} a.
Arguments Raise {A} e.

(** A [float] is kept as its 64 bits; no operation here looks inside. *)
#[warnings="-register-all"]
Inductive pyobj :=
  | PyNone
  | PyBool (b : bool)
  | PyInt (z : Z)
  | PyFloat (bits : N)
  | PyStr (s : str)
  | PyList (l : list pyobj)
  | PyDict (d : gmap str pyobj).

(** What the Python runtime supplies. *)
Class PyRuntime := {
  str_lower : str -> str;
  json_loads : str -> except pyobj
}.

(** Truth value of a string: empty is false. *)
Definition truthy (s : str) : bool :=
  match s with [] => false | _ :: _ => true end.

Definition nl : str := [10%N].

(** ** enhancer.py *)

Module Enhancer.

Definition _CATEGORY_KEYWORDS : list (TaskCategory * list str) :=
  [ (coding, map py
      ["code"; "function"; "class"; "script"; "program"; "implement"; "api";
       "bug"; "error"; "syntax"; "compile"; "algorithm"; "database"; "sql";
       "python"; "javascript"; "typescript"; "java"; "rust"; "html"; "css";
       "react"; "django"; "flask"; "fastapi"; "node"; "docker"; "git"]%string);
    (debugging, map py
      ["debug"; "fix"; "error"; "traceback"; "exception"; "crash"; "broken";
       "not working"; "fails"; "issue"; "stack trace"; "segfault"]%string);
    (writing, map py
      ["write"; "draft"; "compose"; "essay"; "article"; "blog"; "email";
       "letter"; "copy"; "content"; "narrative"; "story"; "report"]%string);
    (analysis, map py
      ["analyze"; "analyse"; "compare"; "evaluate"; "assess"; "review";
       "pros and cons"; "tradeoff"; "benchmark"; "metrics"; "data"]%string);
    (brainstorming, map py
      ["brainstorm"; "ideas"; "suggest"; "creative"; "innovate"; "think of";
       "come up with"; "generate ideas"; "possibilities"]%string);
    (summarization, map py
      ["summarize"; "summarise"; "summary"; "tldr"; "tl;dr"; "key points";
       "brief"; "condense"; "shorten"; "recap"]%string);
    (translation, map py
      ["translate"; "translation"; "convert to"; "in spanish"; "in french";
       "in german"; "in japanese"; "in chinese"; "in hindi"; "localize"]%string);
    (explanation, map py
      ["explain"; "what is"; "how does"; "how do"; "why does"; "teach me";
       "eli5"; "definition"; "meaning of"; "concept of"; "understand"]%string) ].

(** The [scores] dictionary: its keys are the nine categories in
    enumeration order, so it is a total function together with
    [all_categories] as key order. *)
Definition scores_t := TaskCategory -> Z.

(** [scores[category] += 1] *)
Definition incr (category : TaskCategory) (scores : scores_t) : scores_t :=
  fun c => if decide (c = category) then (scores c + 1)%Z else scores c.

(** The inner loop [for kw in keywords]. *)
Definition count_keywords (lower : str) (category : TaskCategory)
    (keywords : list str) (scores : scores_t) : scores_t :=
  fold_left
    (fun sc kw => if contains kw lower then incr category sc else sc)
    keywords scores.

(** The outer loop over [_CATEGORY_KEYWORDS.items()]. *)
Definition keyword_scores (lower : str) : scores_t :=
  fold_left
    (fun sc entry => count_keywords lower (fst entry) (snd entry) sc)
    _CATEGORY_KEYWORDS (fun _ => 0%Z).

(** [max(xs, key=key)] on a sequence with first element [x]: the running
    best is replaced only by a strictly greater key, so the first of the
    greatest elements wins. *)
Definition max_key {A} (key : A -> Z) (x : A) (xs : list A) : A :=
  fold_left (fun best y => if (key best <? key y)%Z then y else best) xs x.

Section WithRuntime.
Context {rt : PyRuntime}.

Definition detect_category (text : str) : TaskCategory :=
  let lower := str_lower text in
  let scores := keyword_scores lower in
  if (0 <? scores debugging)%Z && (0 <? scores coding)%Z
     && (scores coding <=? scores debugging)%Z
  then debugging
  else
    let best := max_key scores (hd general all_categories) (tl all_categories) in
    if (0 <? scores best)%Z then best else general.

End WithRuntime.

Definition _TONE_INSTRUCTIONS (tone : Tone) : option str :=
  match tone with
  | professional =>
      Some (py "Use a professional, clear, and business-appropriate tone.")
  | casual =>
      Some (py "Use a relaxed, conversational tone " ++ [8212%N]
            ++ py " like chatting with a friend.")
  | technical =>
      Some (py "Use precise technical language with proper terminology.")
  | creative =>
      Some (py "Be creative, expressive, and imaginative in your response.")
  | academic =>
      Some (py "Use formal academic language with proper citations style.")
  | friendly =>
      Some (py "Be warm, approachable, and encouraging in your response.")
  end.

Definition get_tone_instruction (tone : Tone) : str :=
  match _TONE_INSTRUCTIONS tone with
  | Some instr => instr
  | None => py "Use a professional, clear, and business-appropriate tone."
  end.

Definition _add_specificity (prompt : str) (original_word_count : Z)
  : str * bool :=
  let wc := if (0 <? original_word_count)%Z then original_word_count
            else Z.of_nat (length (split prompt)) in
  if (wc <? 8)%Z
  then (prompt ++ nl ++ nl
        ++ py "Please be specific and detailed in your response. "
        ++ py "Include concrete examples where relevant.", true)
  else (prompt, false).

Definition structure_hints (category : TaskCategory) : option str :=
  match category with
  | coding => Some (nl ++ nl ++
      py "Structure your response with: explanation, code, and usage example.")
  | analysis => Some (nl ++ nl ++
      py "Organize your analysis with clear sections, bullet points, and a conclusion.")
  | writing => Some (nl ++ nl ++
      py "Use proper headings, paragraphs, and a logical flow.")
  | explanation => Some (nl ++ nl ++
      py "Start with a simple overview, then progressively add detail.")
  | debugging => Some (nl ++ nl ++
      py "Structure: identify the bug " ++ [8594%N] ++ py " explain the cause "
      ++ [8594%N] ++ py " provide the fix " ++ [8594%N]
      ++ py " suggest prevention.")
  | brainstorming => Some (nl ++ nl ++
      py "Present ideas in a numbered list with brief descriptions.")
  | summarization => Some (nl ++ nl ++
      py "Provide an executive summary, then key bullet points.")
  | translation | general => None
  end.

Definition _add_structure_request (prompt : str) (category : TaskCategory)
  : str * bool :=
  match structure_hints category with
  | Some hint => if truthy hint then (prompt ++ hint, true) else (prompt, false)
  | None => (prompt, false)
  end.

Definition roles (category : TaskCategory) : option str :=
  Some (py match category with
    | coding => "You are an expert software engineer with deep knowledge of best practices."
    | debugging => "You are a senior developer skilled at diagnosing and fixing complex bugs."
    | writing => "You are a skilled writer who crafts engaging, well-structured content."
    | analysis => "You are a data analyst who provides clear, evidence-based insights."
    | brainstorming => "You are a creative strategist who generates innovative solutions."
    | explanation => "You are a patient teacher who explains complex topics clearly."
    | summarization => "You are an editor who distills information to its essential points."
    | translation => "You are a professional translator who preserves meaning and nuance."
    | general => "You are a helpful, knowledgeable assistant."
    end).

Definition _add_role_framing (prompt : str) (category : TaskCategory)
  : str * bool :=
  let role := match roles category with
              | Some r => r
              | None => py "You are a helpful, knowledgeable assistant."
              end in
  (role ++ nl ++ nl ++ prompt, true).

Definition _add_quality_guardrails (prompt : str) : str * bool :=
  let guardrails :=
    nl ++ nl ++ py "Important guidelines:" ++ nl
    ++ py "- If you're unsure about something, say so rather than guessing" ++ nl
    ++ py "- Prioritize accuracy over completeness" ++ nl
    ++ py "- Use concrete examples to illustrate points" in
  (prompt ++ guardrails, true).

Section WithRuntime.
Context {rt : PyRuntime}.

Definition enhance_prompt (raw_prompt : str) (tone : Tone)
    (category : option TaskCategory) (extra_context : option str)
  : str * TaskCategory * list str :=
  let detected := match category with
                  | Some c => c
                  | None => detect_category raw_prompt
                  end in
  let techniques : list str := [] in
  let prompt := strip raw_prompt in
  (* 1. Role framing *)
  let '(prompt, applied) := _add_role_framing prompt detected in
  let techniques :=
    if applied then techniques ++ [py "role_framing"] else techniques in
  (* 2. Tone instruction *)
  let tone_instr := get_tone_instruction tone in
  let prompt := prompt ++ nl ++ nl ++ tone_instr in
  let techniques := techniques ++ [py "tone_styling"] in
  (* 3. Specificity boost *)
  let '(prompt, applied) :=
    _add_specificity prompt (Z.of_nat (length (split raw_prompt))) in
  let techniques :=
    if applied then techniques ++ [py "specificity_boost"] else techniques in
  (* 4. Structure request *)
  let '(prompt, applied) := _add_structure_request prompt detected in
  let techniques :=
    if applied then techniques ++ [py "structure_guidance"] else techniques in
  (* 5. Context injection *)
  let '(prompt, techniques) :=
    match extra_context with
    | Some ctx =>
        if truthy ctx
        then (prompt ++ nl ++ nl ++ py "Additional context:" ++ nl ++ ctx,
              techniques ++ [py "context_injection"])
        else (prompt, techniques)
    | None => (prompt, techniques)
    end in
  (* 6. Quality guardrails *)
  let '(prompt, applied) := _add_quality_guardrails prompt in
  let techniques :=
    if applied then techniques ++ [py "quality_guardrails"] else techniques in
  (prompt, detected, techniques).

End WithRuntime.

End Enhancer.

(** ** The exception monad *)

#[global] Instance except_ret : MRet except := fun _ a => Return a.

#[global] Instance except_bind : MBind except :=
  fun _ _ f m => match m with Return a => f a | Raise e => Raise e end.

(** ** templates.py *)

Module TemplateInfo.
Record t := mk {
  id : str;
  name : str;
  category : TaskCategory;
  description : str;
  template : str;
  variables : list str
}.
End TemplateInfo.

Module Templates.

(** The adjacent string literals of a blueprint, one per line of text: the
    lines are joined by a newline character. *)
Fixpoint text (lines : list string) : str :=
  match lines with
  | [] => []
  | [l] => py l
  | l :: ls => py l ++ nl ++ text ls
  end.

(** [TEMPLATES[t.id] = t] *)
Definition _register (t : TemplateInfo.t) (reg : gmap str TemplateInfo.t)
  : gmap str TemplateInfo.t :=
  <[TemplateInfo.id t := t]> reg.

Definition code_write : TemplateInfo.t :=
  TemplateInfo.mk (py "code-write") (py "Write Code") coding
    (py "Generate clean, well-documented code for a given task")
    (text [ "Write {language} code that accomplishes the following:"; "";
            "{task_description}"; "";
            "Requirements:";
            "- Follow best practices and idiomatic patterns for {language}";
            "- Include clear comments explaining the logic";
            "- Handle edge cases and errors gracefully";
            "- Provide example usage" ]%string)
    (map py ["language"; "task_description"]%string).

Definition code_review : TemplateInfo.t :=
  TemplateInfo.mk (py "code-review") (py "Code Review") coding
    (py "Get a thorough code review with actionable suggestions")
    (text [ "Perform a detailed code review of the following code:"; "";
            "```{language}"; "{code}"; "```"; "";
            "Evaluate for:";
            "1. Correctness and potential bugs";
            "2. Performance and efficiency";
            "3. Readability and maintainability";
            "4. Security concerns";
            "5. Adherence to {language} best practices"; "";
            "Provide specific, actionable suggestions with code examples." ]%string)
    (map py ["language"; "code"]%string).

Definition code_debug : TemplateInfo.t :=
  TemplateInfo.mk (py "code-debug") (py "Debug Code") debugging
    (py "Systematically debug code issues")
    (text [ "I have the following {language} code that is producing an error:"; "";
            "```{language}"; "{code}"; "```"; "";
            "Error message: {error_message}"; "";
            "Please:";
            "1. Identify the root cause of the error";
            "2. Explain why the error occurs";
            "3. Provide the corrected code";
            "4. Suggest how to prevent similar issues" ]%string)
    (map py ["language"; "code"; "error_message"]%string).

Definition write_article : TemplateInfo.t :=
  TemplateInfo.mk (py "write-article") (py "Write Article") writing
    (py "Create a well-structured article on any topic")
    (text [ "Write a comprehensive article about: {topic}"; "";
            "Target audience: {audience}";
            "Desired length: {length}"; "";
            "Structure the article with:";
            "- An engaging introduction that hooks the reader";
            "- Well-organized sections with clear headings";
            "- Supporting evidence, examples, or data points";
            "- A compelling conclusion with key takeaways"; "";
            "Tone: {tone}" ]%string)
    (map py ["topic"; "audience"; "length"; "tone"]%string).

Definition write_email : TemplateInfo.t :=
  TemplateInfo.mk (py "write-email") (py "Compose Email") writing
    (py "Draft a professional or casual email")
    (text [ "Draft an email with the following details:"; "";
            "Purpose: {purpose}";
            "Recipient: {recipient}";
            "Key points to cover:"; "{key_points}"; "";
            "Tone: {tone}";
            "Keep it concise and action-oriented." ]%string)
    (map py ["purpose"; "recipient"; "key_points"; "tone"]%string).

Definition analyze_data : TemplateInfo.t :=
  TemplateInfo.mk (py "analyze-data") (py "Analyze Data") analysis
    (py "Get structured analysis of data or information")
    (text [ "Analyze the following data/information:"; "";
            "{data}"; "";
            "Please provide:";
            "1. Key findings and patterns";
            "2. Notable outliers or anomalies";
            "3. Trends and correlations";
            "4. Actionable insights and recommendations";
            "5. Limitations of this analysis"; "";
            "Focus area: {focus_area}" ]%string)
    (map py ["data"; "focus_area"]%string).

Definition compare_options : TemplateInfo.t :=
  TemplateInfo.mk (py "compare-options") (py "Compare Options") analysis
    (py "Get a structured comparison of multiple options")
    (text [ "Compare the following options:"; "";
            "{options}"; "";
            "Evaluation criteria: {criteria}"; "";
            "For each option provide:";
            "- Pros and cons";
            "- Best use cases";
            "- Cost/effort considerations";
            "- Final recommendation with justification" ]%string)
    (map py ["options"; "criteria"]%string).

Definition brainstorm_ideas : TemplateInfo.t :=
  TemplateInfo.mk (py "brainstorm-ideas") (py "Brainstorm Ideas") brainstorming
    (py "Generate creative ideas for a topic or problem")
    (text [ "Generate creative and diverse ideas for:"; "";
            "{topic}"; "";
            "Constraints: {constraints}"; "";
            "Please provide:";
            "- At least 10 unique ideas ranging from practical to innovative";
            "- A brief description of each idea";
            "- Why each idea could work";
            "- Quick feasibility rating (Easy / Medium / Hard)" ]%string)
    (map py ["topic"; "constraints"]%string).

Definition summarize_text : TemplateInfo.t :=
  TemplateInfo.mk (py "summarize-text") (py "Summarize Text") summarization
    (py "Create concise summaries of long content")
    (text [ "Summarize the following content:"; "";
            "{content}"; "";
            "Provide:";
            "1. A one-paragraph executive summary";
            "2. Key bullet points (5-7 items)";
            "3. Important details that shouldn't be missed";
            "4. Action items or next steps (if applicable)" ]%string)
    (map py ["content"]%string).

Definition explain_concept : TemplateInfo.t :=
  TemplateInfo.mk (py "explain-concept") (py "Explain Concept") explanation
    (py "Get a clear explanation of any concept")
    (text [ "Explain the concept of: {concept}"; "";
            "Target knowledge level: {level}"; "";
            "Please include:";
            "- A simple, intuitive explanation";
            "- A real-world analogy";
            "- Key terminology defined";
            "- A practical example";
            "- Common misconceptions to avoid";
            "- Resources for deeper learning" ]%string)
    (map py ["concept"; "level"]%string).

Definition eli5 : TemplateInfo.t :=
  TemplateInfo.mk (py "eli5") (py "Explain Like I'm 5") explanation
    (py "Super-simple explanation for complex topics")
    (text [ "Explain {concept} in the simplest possible terms, as if I'm 5 years old."; "";
            "Use:";
            "- Everyday analogies and examples";
            "- Short, simple sentences";
            "- No jargon or technical terms";
            "- A fun, engaging tone" ]%string)
    (map py ["concept"]%string).

Definition translate_text : TemplateInfo.t :=
  TemplateInfo.mk (py "translate-text") (py "Translate Text") translation
    (py "Translate text while preserving meaning and nuance")
    (text [ "Translate the following text from {source_language} to {target_language}:"; "";
            "{text}"; "";
            "Requirements:";
            "- Preserve the original meaning, tone, and nuance";
            "- Use natural phrasing in the target language";
            "- Note any cultural context that affects the translation";
            "- Flag any ambiguous phrases with alternative translations" ]%string)
    (map py ["source_language"; "target_language"; "text"]%string).

(** The registry after the module's twelve [_register] calls, in order. *)
Definition TEMPLATES : gmap str TemplateInfo.t :=
  fold_left (fun reg t => _register t reg)
    [ code_write; code_review; code_debug; write_article; write_email;
      analyze_data; compare_options; brainstorm_ideas; summarize_text;
      explain_concept; eli5; translate_text ]
    ∅.

Definition get_template (template_id : str) : option TemplateInfo.t :=
  TEMPLATES !! template_id.

(** [variables.get(var, default)]: only a dictionary has [get]. *)
Definition py_get (variables : pyobj) (var : str) (default : pyobj)
  : except pyobj :=
  match variables with
  | PyDict d => Return (match d !! var with Some v => v | None => default end)
  | _ => Raise AttributeError
  end.

(** [result.replace(placeholder, value)]: the replacement must be a [str]. *)
Definition py_replace (result placeholder : str) (value : pyobj) : except str :=
  match value with
  | PyStr v => Return (replace placeholder v result)
  | _ => Raise TypeError
  end.

Definition placeholder_of (var : str) : str := py "{" ++ var ++ py "}".
Definition marker_of (var : str) : str := py "[" ++ var ++ py "]".

(** The loop [for var in tmpl.variables]. *)
Fixpoint render_vars (variables : pyobj) (vars : list str) (result : str)
  : except str :=
  match vars with
  | [] => Return result
  | var :: vars' =>
      let placeholder := placeholder_of var in
      value ← py_get variables var (PyStr (marker_of var));
      result ← py_replace result placeholder value;
      render_vars variables vars' result
  end.

Definition render_template (template_id : str) (variables : pyobj)
  : except str :=
  match TEMPLATES !! template_id with
  | None => Raise (ValueError (py "Unknown template: " ++ template_id))
  | Some tmpl =>
      render_vars variables (TemplateInfo.variables tmpl)
        (TemplateInfo.template tmpl)
  end.

End Templates.

(** ** history.py *)

(** A [datetime], as microseconds since the epoch. *)
Definition datetime := Z.

Module HistoryEntry.
Record t := mk {
  id : Z;
  original : str;
  enhanced : str;
  category : TaskCategory;
  tone : Tone;
  timestamp : datetime;
  starred : bool
}.
End HistoryEntry.

Module History.

(** The backing JSON file, by what reading it as a list of entries does:
    there is no file; [json.loads] or the construction of the entries raises
    [e] ([JSONDecodeError] on text that is not JSON, a [ValueError] on an
    object that is not an entry, [TypeError] on JSON that is not a list of
    objects, such as a number); or the reading gives the entries last
    dumped. *)
Inductive file :=
  | NoFile
  | Unreadable (e : exn)
  | Dumped (data : list HistoryEntry.t).

(** [_path] stands for the file found at the history path. *)
Record HistoryManager := mkHistoryManager {
  _entries : list HistoryEntry.t;
  _path : file
}.

(** Only [except (json.JSONDecodeError, ValueError)] guards the reading:
    any other error leaves [_load]. *)
Definition _load (self : HistoryManager) : except HistoryManager :=
  match _path self with
  | NoFile => Return self
  | Unreadable e =>
      match e with
      | JSONDecodeError | ValueError _ =>
          Return (mkHistoryManager [] (_path self))
      | _ => Raise e
      end
  | Dumped raw => Return (mkHistoryManager raw (_path self))
  end.

(** [HistoryManager(path)]: the constructor ends with [self._load()]. *)
Definition new (path : file) : except HistoryManager :=
  _load (mkHistoryManager [] path).

Definition _save (self : HistoryManager) : HistoryManager :=
  mkHistoryManager (_entries self) (Dumped (_entries self)).

(** [max((e.id for e in entries), default=0)] *)
Definition max_id (entries : list HistoryEntry.t) : Z :=
  match entries with
  | [] => 0%Z
  | e :: es =>
      fold_left (fun best x => if (best <? x)%Z then x else best)
        (map HistoryEntry.id es) (HistoryEntry.id e)
  end.

Definition add (now : datetime) (original enhanced : str)
    (category : TaskCategory) (tone : Tone) (self : HistoryManager)
  : HistoryEntry.t * HistoryManager :=
  let next_id := (max_id (_entries self) + 1)%Z in
  let entry :=
    HistoryEntry.mk next_id original enhanced category tone now false in
  let self := mkHistoryManager (_entries self ++ [entry]) (_path self) in
  (entry, _save self).

(** [items[:limit]]: a negative [limit] counts from the end. *)
Definition slice_to {A} (limit : Z) (items : list A) : list A :=
  if (limit <? 0)%Z
  then firstn (Z.to_nat (Z.of_nat (length items) + limit)) items
  else firstn (Z.to_nat limit) items.

Definition list_ (category : option TaskCategory) (limit : Z)
    (starred_only : bool) (self : HistoryManager) : list HistoryEntry.t :=
  let items := rev (_entries self) in
  let items :=
    match category with
    | Some c =>
        List.filter (fun e => bool_decide (HistoryEntry.category e = c)) items
    | None => items
    end in
  let items :=
    if starred_only then List.filter HistoryEntry.starred items else items in
  slice_to limit items.

Definition search {rt : PyRuntime} (query : str) (limit : Z)
    (self : HistoryManager) : list HistoryEntry.t :=
  let q := str_lower query in
  let results :=
    List.filter
      (fun e => contains q (str_lower (HistoryEntry.original e))
                || contains q (str_lower (HistoryEntry.enhanced e)))
      (rev (_entries self)) in
  slice_to limit results.

(** The loop of [star]: flip the first entry carrying [entry_id]. *)
Fixpoint star_first (entry_id : Z) (entries : list HistoryEntry.t)
  : option (HistoryEntry.t * list HistoryEntry.t) :=
  match entries with
  | [] => None
  | e :: es =>
      if (HistoryEntry.id e =? entry_id)%Z
      then
        let e' := HistoryEntry.mk (HistoryEntry.id e) (HistoryEntry.original e)
                    (HistoryEntry.enhanced e) (HistoryEntry.category e)
                    (HistoryEntry.tone e) (HistoryEntry.timestamp e)
                    (negb (HistoryEntry.starred e)) in
        Some (e', e' :: es)
      else
        match star_first entry_id es with
        | Some (e', es') => Some (e', e :: es')
        | None => None
        end
  end.

Definition star (entry_id : Z) (self : HistoryManager)
  : option HistoryEntry.t * HistoryManager :=
  match star_first entry_id (_entries self) with
  | Some (e, entries) =>
      (Some e, _save (mkHistoryManager entries (_path self)))
  | None => (None, self)
  end.

Definition delete (entry_id : Z) (self : HistoryManager)
  : bool * HistoryManager :=
  let before := length (_entries self) in
  let self' :=
    mkHistoryManager
      (List.filter (fun e => negb (HistoryEntry.id e =? entry_id)%Z)
         (_entries self))
      (_path self) in
  if (length (_entries self') <? before)%nat
  then (true, _save self')
  else (false, self').

Definition clear (self : HistoryManager) : Z * HistoryManager :=
  let count := Z.of_nat (length (_entries self)) in
  (count, _save (mkHistoryManager [] (_path self))).

Definition count (self : HistoryManager) : Z :=
  Z.of_nat (length (_entries self)).

End History.

(** ** engine.py *)

Module PromptRequest.
Record t := mk {
  raw_prompt : str;
  tone : Tone;
  category : option TaskCategory;
  context : option str;
  auto_enhance : bool;
  template_id : option str
}.

(** The constraint the request model puts on its fields: [raw_prompt] has
    [min_length=1]. *)
Definition valid (r : t) : Prop := raw_prompt r <> [].
End PromptRequest.

Module EnhancedPrompt.
Record t := mk {
  original : str;
  enhanced : str;
  category : TaskCategory;
  tone : Tone;
  techniques_applied : list str;
  timestamp : datetime
}.
End EnhancedPrompt.

Module Engine.

Import History.

(** [{"task_description": base_prompt, "content": base_prompt}] *)
Definition fallback_variables (base_prompt : str) : pyobj :=
  PyDict (<[py "content" := PyStr base_prompt]>
            (<[py "task_description" := PyStr base_prompt]> ∅)).

(** The test [if request.template_id:]: a value is there and not empty. *)
Definition is_set (o : option str) : bool :=
  match o with Some s => truthy s | None => false end.

Section WithRuntime.
Context {rt : PyRuntime}.

(** The [try: json.loads ... except (JSONDecodeError, TypeError)] block. *)
Definition load_variables (base_prompt : str) : except pyobj :=
  match json_loads base_prompt with
  | Return variables => Return variables
  | Raise JSONDecodeError | Raise TypeError =>
      Return (fallback_variables base_prompt)
  | Raise e => Raise e
  end.

(** Step 1 of [process]: the text the later steps work on. *)
Definition base_prompt_of (request : PromptRequest.t) : except str :=
  let base_prompt := PromptRequest.raw_prompt request in
  match PromptRequest.template_id request with
  | Some template_id =>
      if truthy template_id
      then
        variables ← load_variables base_prompt;
        Templates.render_template template_id variables
      else Return base_prompt
  | None => Return base_prompt
  end.

(** [PromptEngine.process]; [self] is the engine's history manager, and the
    two clock readings are those of the result and of the stored entry. *)
Definition process (now_result now_entry : datetime)
    (request : PromptRequest.t) (self : HistoryManager)
  : except (EnhancedPrompt.t * HistoryManager) :=
  base_prompt ← base_prompt_of request;
  let '(enhanced_text, detected_category, techniques) :=
    if PromptRequest.auto_enhance request
    then
      Enhancer.enhance_prompt base_prompt (PromptRequest.tone request)
        (PromptRequest.category request) (PromptRequest.context request)
    else
      let enhanced_text := base_prompt in
      let detected_category :=
        match PromptRequest.category request with
        | Some c => c
        | None => general
        end in
      let techniques : list str := [] in
      let enhanced_text :=
        match PromptRequest.context request with
        | Some ctx =>
            if truthy ctx
            then enhanced_text ++ nl ++ nl ++ py "Additional context:"
                 ++ nl ++ ctx
            else enhanced_text
        | None => enhanced_text
        end in
      (enhanced_text, detected_category, techniques) in
  let result :=
    EnhancedPrompt.mk (PromptRequest.raw_prompt request) enhanced_text
      detected_category (PromptRequest.tone request) techniques now_result in
  let '(_, self) :=
    add now_entry (EnhancedPrompt.original result)
      (EnhancedPrompt.enhanced result) (EnhancedPrompt.category result)
      (EnhancedPrompt.tone result) self in
  Return (result, self).

End WithRuntime.

End Engine.

(** ** Vocabulary of the statements *)

Module HistorySpec.

Import History.

Definition ids (self : HistoryManager) : list Z :=
  map HistoryEntry.id (_entries self).

(** [m] is the greatest id in use, or 0 when no entry exists. *)
Definition is_maximum_id (self : HistoryManager) (m : Z) : Prop :=
  match ids self with
  | [] => m = 0%Z
  | _ :: _ => In m (ids self) /\ Forall (fun x => (x <= m)%Z) (ids self)
  end.

(** The entries are in strictly increasing order of id. *)
Definition increasing (self : HistoryManager) : Prop :=
  StronglySorted Z.lt (ids self).

(** [e] matches the query: the lower-cased query occurs in its lower-cased
    original or enhanced text. *)
Definition matches {rt : PyRuntime} (query : str) (e : HistoryEntry.t) : bool :=
  contains (str_lower query) (str_lower (HistoryEntry.original e))
  || contains (str_lower query) (str_lower (HistoryEntry.enhanced e)).

(** [e] passes the filters of [list]. *)
Definition listed (category : option TaskCategory) (starred_only : bool)
    (e : HistoryEntry.t) : bool :=
  match category with
  | Some c => bool_decide (HistoryEntry.category e = c)
  | None => true
  end
  && (if starred_only then HistoryEntry.starred e else true).

(** The mutating operations of the store. *)
Inductive op :=
  | Add (now : datetime) (original enhanced : str)
        (category : TaskCategory) (tone : Tone)
  | Star (entry_id : Z)
  | Delete (entry_id : Z)
  | Clear.

Definition step (o : op) (self : HistoryManager) : HistoryManager :=
  match o with
  | Add now original enhanced category tone =>
      snd (add now original enhanced category tone self)
  | Star entry_id => snd (star entry_id self)
  | Delete entry_id => snd (delete entry_id self)
  | Clear => snd (clear self)
  end.

Definition run (ops : list op) (self : HistoryManager) : HistoryManager :=
  fold_left (fun h o => step o h) ops self.

End HistorySpec.

Module EnhancerSpec.

Import Enhancer.

(** Number of whitespace-separated words. *)
Definition word_count (s : str) : nat := length (split s).

(** [sub] occurs in [s] as a contiguous run of characters. *)
Definition substring (sub s : str) : Prop :=
  exists pre post, s = pre ++ sub ++ post.

(** The keywords associated with a category. *)
Definition keywords_of (c : TaskCategory) : list str :=
  concat (map snd
    (List.filter (fun entry => bool_decide (fst entry = c)) _CATEGORY_KEYWORDS)).

(** The keywords of a list that occur in [lower]. *)
Definition matching (lower : str) (keywords : list str) : list str :=
  List.filter (fun kw => contains kw lower) keywords.

(** Keyword score: how many of the category's keywords occur in [lower]. *)
Definition keyword_hits (lower : str) (c : TaskCategory) : nat :=
  length (matching lower (keywords_of c)).

(** [r] is the first element of [l] whose key is the greatest. *)
Definition first_maximum {A} (key : A -> Z) (l : list A) (r : A) : Prop :=
  exists pre post,
    l = pre ++ r :: post
    /\ Forall (fun y => (key y < key r)%Z) pre
    /\ Forall (fun y => (key y <= key r)%Z) post.

(** The categories with a structural instruction. *)
Definition has_structure (c : TaskCategory) : bool :=
  match c with
  | translation | general => false
  | _ => true
  end.

(** The technique tags in application order, the three conditional ones
    kept or dropped by their flag. *)
Definition technique_tags (specificity structure context : bool) : list str :=
  [py "role_framing"; py "tone_styling"]
  ++ (if specificity then [py "specificity_boost"] else [])
  ++ (if structure then [py "structure_guidance"] else [])
  ++ (if context then [py "context_injection"] else [])
  ++ [py "quality_guardrails"].

(** The pieces of text the pipeline puts around the prompt. *)
Definition persona (c : TaskCategory) : str :=
  match roles c with
  | Some r => r
  | None => py "You are a helpful, knowledgeable assistant."
  end.

Definition specificity_text : str :=
  nl ++ nl ++ py "Please be specific and detailed in your response. "
  ++ py "Include concrete examples where relevant.".

Definition structure_text (c : TaskCategory) : str :=
  match structure_hints c with Some h => h | None => [] end.

Definition context_block (ctx : str) : str :=
  nl ++ nl ++ py "Additional context:" ++ nl ++ ctx.

Definition guardrails_text : str := fst (_add_quality_guardrails []).

(** The prompt after role framing and tone styling. *)
Definition framed (raw : str) (c : TaskCategory) (tone : Tone) : str :=
  persona c ++ nl ++ nl ++ strip raw ++ nl ++ nl ++ get_tone_instruction tone.

(** When the pipeline adds the specificity request. *)
Definition specificity_due (raw : str) : bool :=
  (0 <? word_count raw)%nat && (word_count raw <? 8)%nat.

(** A context was given and is not empty. *)
Definition context_due (ctx : option str) : bool :=
  match ctx with Some c => truthy c | None => false end.

Definition context_of (ctx : option str) : str :=
  match ctx with Some c => c | None => [] end.

(** The resolved category: the forced one, else the detected one. *)
Definition resolved {rt : PyRuntime} (raw : str)
    (category : option TaskCategory) : TaskCategory :=
  match category with Some c => c | None => detect_category raw end.

End EnhancerSpec.

Module ReplaceSpec.

(** [old] occurs in [s] at offset [i]. *)
Definition occurs_at (old s : str) (i : nat) : Prop :=
  exists pre post, s = pre ++ old ++ post /\ length pre = i.

(** [out] is [s] with every occurrence of [old] replaced by [new]: either
    [old] does not occur, or its leftmost occurrence is replaced and the
    text after it is treated the same way. *)
Inductive replaced (old new : str) : str -> str -> Prop :=
  | replaced_none s :
      (forall i, ~ occurs_at old s i) ->
      replaced old new s s
  | replaced_first pre post out :
      (forall i, (i < length pre)%nat ->
                 ~ occurs_at old (pre ++ old ++ post) i) ->
      replaced old new post out ->
      replaced old new (pre ++ old ++ post) (pre ++ new ++ out).

End ReplaceSpec.

Module TemplateSpec.

Import Templates ReplaceSpec.

(** A mapping from variable names to texts, as a Python dictionary. *)
Definition mapping (vars : gmap str str) : pyobj := PyDict (PyStr <$> vars).

(** The placeholder token of a variable: its name between the braces
    (code points 123 and 125). *)
Definition token (var : str) : str := 123%N :: var ++ [125%N].

(** The marker that echoes a variable: its name between the square
    brackets (code points 91 and 93). *)
Definition bracketed (var : str) : str := 91%N :: var ++ [93%N].

(** The text that stands for a variable: the supplied value, or the
    bracketed marker when the mapping has none. *)
Definition value_for (vars : gmap str str) (var : str) : str :=
  match vars !! var with
  | Some v => v
  | None => bracketed var
  end.

(** One pass: every occurrence of the variable's placeholder is replaced. *)
Definition substitute (vars : gmap str str) (acc var : str) : str :=
  replace (token var) (value_for vars var) acc.

(** [out] is [text] after the declared variables were substituted one after
    the other, in their declared order. *)
Inductive rendered (vars : gmap str str) : list str -> str -> str -> Prop :=
  | rendered_nil text : rendered vars [] text text
  | rendered_cons var rest text text' out :
      replaced (token var) (value_for vars var) text text' ->
      rendered vars rest text' out ->
      rendered vars (var :: rest) text out.

End TemplateSpec.

Module EngineSpec.

Import Engine Templates.

(** The text a request is processed on: the raw prompt itself, or the
    rendering of the selected template. *)
Inductive working_text {rt : PyRuntime} (request : PromptRequest.t)
  : str -> Prop :=
  | working_plain :
      is_set (PromptRequest.template_id request) = false ->
      working_text request (PromptRequest.raw_prompt request)
  | working_rendered template_id variables text :
      PromptRequest.template_id request = Some template_id ->
      template_id <> [] ->
      load_variables (PromptRequest.raw_prompt request) = Return variables ->
      render_template template_id variables = Return text ->
      working_text request text.

(** [json.loads] turns the prompt into a mapping of names to texts. *)
Definition parses_as_mapping {rt : PyRuntime} (raw : str) : Prop :=
  exists vars : gmap str str, json_loads raw = Return (TemplateSpec.mapping vars).

(** The mapping behind [fallback_variables]. *)
Definition fallback_mapping (raw : str) : gmap str str :=
  <[py "content" := raw]> (<[py "task_description" := raw]> ∅).

(** What [process] hands back on the working text [text]. *)
Definition outcome {rt : PyRuntime} (now_result : datetime)
    (request : PromptRequest.t) (text : str) : EnhancedPrompt.t :=
  let '(enhanced, category, techniques) :=
    if PromptRequest.auto_enhance request
    then Enhancer.enhance_prompt text (PromptRequest.tone request)
           (PromptRequest.category request) (PromptRequest.context request)
    else
      (text ++ (if EnhancerSpec.context_due (PromptRequest.context request)
                then EnhancerSpec.context_block
                       (EnhancerSpec.context_of (PromptRequest.context request))
                else []),
       match PromptRequest.category request with
       | Some c => c
       | None => general
       end,
       []) in
  EnhancedPrompt.mk (PromptRequest.raw_prompt request) enhanced category
    (PromptRequest.tone request) techniques now_result.

End EngineSpec.

(** ** Sample runtime and inputs of the examples *)

Module Samples.

Import HistorySpec TemplateSpec.

(** [str.lower] on ASCII text: only the letters A to Z change. *)
Definition lower_ascii (s : str) : str :=
  map (fun c => if ((65 <=? c) && (c <=? 90))%N then (c + 32)%N else c) s.

Definition dq : str := [34%N].

(** The JSON text of an object with the members [language] and
    [task_description]. *)
Definition go_document : str :=
  py "{" ++ dq ++ py "language" ++ dq ++ py ": " ++ dq ++ py "Go" ++ dq
  ++ py ", " ++ dq ++ py "task_description" ++ dq ++ py ": "
  ++ dq ++ py "HTTP server" ++ dq ++ py "}".

Definition go_variables : gmap str str :=
  <[py "task_description" := py "HTTP server"]>
    (<[py "language" := py "Go"]> ∅).

(** [json.loads] on the texts the examples use: the number [123], the
    object [go_document], and prose, which is not JSON and is rejected. *)
Definition loads_examples (s : str) : except pyobj :=
  if decide (s = py "123") then Return (PyInt 123)
  else if decide (s = go_document) then Return (mapping go_variables)
  else Raise JSONDecodeError.

Definition ascii_runtime : PyRuntime :=
  {| str_lower := lower_ascii; json_loads := loads_examples |}.

(** The manager that [HistoryManager(path)] returns where no file exists. *)
Definition no_history : History.HistoryManager :=
  History.mkHistoryManager [] History.NoFile.

Definition sample_ops : list op :=
  [ Add 10%Z (py "a") (py "A") general professional;
    Add 11%Z (py "b") (py "B") coding casual;
    Add 12%Z (py "c") (py "C") writing friendly;
    Star 2%Z;
    Delete 2%Z;
    Add 13%Z (py "d") (py "D") general professional;
    Delete 4%Z;
    Add 14%Z (py "e") (py "E") general professional ].

(** A request with [auto_enhance] off, a context and no template. *)
Definition plain_request : PromptRequest.t :=
  PromptRequest.mk (py "sort a list") professional None
    (Some (py "Using Python 3.12")) false None.

(** A prose prompt with a template id that is not registered. *)
Definition unknown_request : PromptRequest.t :=
  PromptRequest.mk (py "hello") professional None None true (Some (py "nope")).

(** The same with [auto_enhance] off. *)
Definition unknown_plain_request : PromptRequest.t :=
  PromptRequest.mk (py "hello") professional None (Some (py "ctx")) false
    (Some (py "nope")).

(** A prose prompt with the registered template [summarize-text]. *)
Definition prose_request : PromptRequest.t :=
  PromptRequest.mk (py "the quarterly numbers") professional None None false
    (Some (py "summarize-text")).

(** The request whose prompt is the JSON number [123]. *)
Definition numeric_request : PromptRequest.t :=
  PromptRequest.mk (py "123") professional None None true
    (Some (py "code-write")).

End Samples.

(** ** More of templates.py: the registry as an ordered dictionary *)

Module Registry.

Import Templates.

#[global] Instance TemplateInfo_eq_dec : EqDecision TemplateInfo.t.
Proof. solve_decision. Defined.

(** The templates in the order of the module's [_register] calls. *)
Definition registrations : list TemplateInfo.t :=
  [ code_write; code_review; code_debug; write_article; write_email;
    analyze_data; compare_options; brainstorm_ideas; summarize_text;
    explain_concept; eli5; translate_text ].

(** [d[k] = v] on a dictionary kept with its insertion order: a key already
    there keeps its place. *)
Fixpoint dict_set (k : str) (v : TemplateInfo.t)
    (d : list (str * TemplateInfo.t)) : list (str * TemplateInfo.t) :=
  match d with
  | [] => [(k, v)]
  | (k', v') :: d' =>
      if decide (k' = k) then (k, v) :: d' else (k', v') :: dict_set k v d'
  end.

(** [TEMPLATES] with the order of its items, as [_register] builds it. *)
Definition TEMPLATES_items : list (str * TemplateInfo.t) :=
  fold_left (fun d t => dict_set (TemplateInfo.id t) t d) registrations [].

(** [list(TEMPLATES.values())], then the category filter. *)
Definition list_templates (category : option TaskCategory)
  : list TemplateInfo.t :=
  let templates := map snd TEMPLATES_items in
  match category with
  | Some c =>
      List.filter (fun t => bool_decide (TemplateInfo.category t = c)) templates
  | None => templates
  end.

End Registry.

(** ** More vocabulary: blueprints as chunks, the file of the store *)

Module BlueprintSpec.

Import Templates TemplateSpec.

(** A blueprint cut into literal text and placeholders. *)
Inductive chunk :=
  | Plain (s : str)
  | Hole (var : str).

Definition lbrace : char := 123%N.
Definition rbrace : char := 125%N.

Definition has_char (c : char) (s : str) : bool := existsb (N.eqb c) s.

(** The text a chunk stands for in the blueprint. *)
Definition chunk_text (c : chunk) : str :=
  match c with
  | Plain s => s
  | Hole var => token var
  end.

Definition flatten (cs : list chunk) : str := flat_map chunk_text cs.

(** The blueprint with every placeholder replaced at once, by the value
    supplied for its variable or by the marker. *)
Definition instantiate (vars : gmap str str) (cs : list chunk) : str :=
  flat_map (fun c => match c with
                     | Plain s => s
                     | Hole var => value_for vars var
                     end) cs.

Definition emit (plain : str) : list chunk :=
  match plain with [] => [] | _ :: _ => [Plain (rev plain)] end.

(** Cutting a text at its braces: [plain] and [hole] hold what has been read
    of the current piece, last character first.  No result when a brace is
    left open or opens inside a placeholder. *)
Fixpoint cut (plain : str) (hole : option str) (s : str)
  : option (list chunk) :=
  match s with
  | [] => match hole with Some _ => None | None => Some (emit plain) end
  | c :: s' =>
      match hole with
      | None =>
          if (c =? lbrace)%N
          then option_map (app (emit plain)) (cut [] (Some []) s')
          else cut (c :: plain) None s'
      | Some h =>
          if (c =? rbrace)%N
          then option_map (cons (Hole (rev h))) (cut [] None s')
          else if (c =? lbrace)%N then None
          else cut plain (Some (c :: h)) s'
      end
  end.

Definition chunks_of (s : str) : option (list chunk) := cut [] None s.

(** The variables of the placeholders, in order of appearance. *)
Definition holes (cs : list chunk) : list str :=
  flat_map (fun c => match c with Hole v => [v] | Plain _ => [] end) cs.

Definition tidy_chunk (c : chunk) : bool :=
  match c with
  | Plain s => negb (has_char lbrace s)
  | Hole v => negb (has_char lbrace v) && negb (has_char rbrace v)
  end.

Definition mem (v : str) (l : list str) : bool :=
  existsb (fun w => bool_decide (w = v)) l.

(** A template whose braces are all placeholders of declared variables,
    every declared variable being used, whose variable names are free of
    braces, and which declares a variable at all. *)
Definition well_formed (t : TemplateInfo.t) : bool :=
  match chunks_of (TemplateInfo.template t) with
  | None => false
  | Some cs =>
      bool_decide (flatten cs = TemplateInfo.template t)
      && forallb tidy_chunk cs
      && forallb (fun v => mem v (TemplateInfo.variables t)) (holes cs)
      && forallb (fun v => mem v (holes cs)
                           && negb (has_char lbrace v)
                           && negb (has_char rbrace v))
           (TemplateInfo.variables t)
      && negb (bool_decide (TemplateInfo.variables t = []))
  end.

(** What one pass of the loop does to a chunk. *)
Definition fill_one (v val : str) (c : chunk) : chunk :=
  match c with
  | Hole w => if decide (w = v) then Plain val else Hole w
  | Plain s => Plain s
  end.

(** A chunk after the passes for the variables of [declared]. *)
Definition fill (vars : gmap str str) (declared : list str) (c : chunk)
  : chunk :=
  match c with
  | Hole w => if mem w declared then Plain (value_for vars w) else Hole w
  | Plain s => Plain s
  end.

(** A value of the variables dictionary that [str.replace] accepts: a text,
    or no value at all (the marker is used then). *)
Definition text_or_missing (d : gmap str pyobj) (var : str) : bool :=
  match d !! var with
  | Some (PyStr _) | None => true
  | Some _ => false
  end.

End BlueprintSpec.

Module HistoryMoreSpec.

Import History.

(** The entries that carry the id. *)
Definition carrying (entry_id : Z) (self : HistoryManager)
  : list HistoryEntry.t :=
  List.filter (fun e => (HistoryEntry.id e =? entry_id)%Z) (_entries self).

(** The file holds what a new manager would read back as the entries. *)
Definition in_sync (self : HistoryManager) : Prop :=
  exists reopened,
    new (_path self) = Return reopened
    /\ _entries reopened = _entries self.

(** The entry with its starred flag flipped, all else kept. *)
Definition flipped (e : HistoryEntry.t) : HistoryEntry.t :=
  HistoryEntry.mk (HistoryEntry.id e) (HistoryEntry.original e)
    (HistoryEntry.enhanced e) (HistoryEntry.category e) (HistoryEntry.tone e)
    (HistoryEntry.timestamp e) (negb (HistoryEntry.starred e)).

End HistoryMoreSpec.

Module MoreSamples.

Import TemplateSpec.

(** A dictionary with a number under a declared variable of [code-write]
    and a list under a key the template does not declare. *)
Definition mixed_dict : gmap str pyobj :=
  <[py "language" := PyInt 3]>
    (<[py "task_description" := PyStr (py "HTTP server")]>
       (<[py "notes" := PyList []]> ∅)).

(** A mapping that gives [code-write] its [language] and leaves its
    [task_description] without a value. *)
Definition language_only : gmap str str := <[py "language" := py "Go"]> ∅.

(** The request of the test suite: a JSON object as prompt, with the
    [code-write] template. *)
Definition json_request : PromptRequest.t :=
  PromptRequest.mk Samples.go_document technical None None true
    (Some (py "code-write")).

End MoreSamples.

Module TechniqueSpec.

(** The texts of the blocks, spelled out here on their own. *)
Definition persona_line (c : TaskCategory) : str :=
  match c with
  | coding =>
      py "You are an expert software engineer with deep knowledge of "
      ++ py "best practices."
  | debugging =>
      py "You are a senior developer skilled at diagnosing and fixing "
      ++ py "complex bugs."
  | writing =>
      py "You are a skilled writer who crafts engaging, well-structured "
      ++ py "content."
  | analysis =>
      py "You are a data analyst who provides clear, evidence-based insights."
  | brainstorming =>
      py "You are a creative strategist who generates innovative solutions."
  | explanation =>
      py "You are a patient teacher who explains complex topics clearly."
  | summarization =>
      py "You are an editor who distills information to its essential points."
  | translation =>
      py "You are a professional translator who preserves meaning and nuance."
  | general => py "You are a helpful, knowledgeable assistant."
  end.

Definition tone_line (tone : Tone) : str :=
  match tone with
  | professional =>
      py "Use a professional, clear, and business-appropriate tone."
  | casual =>
      py "Use a relaxed, conversational tone " ++ [8212%N]
      ++ py " like chatting with a friend."
  | technical => py "Use precise technical language with proper terminology."
  | creative => py "Be creative, expressive, and imaginative in your response."
  | academic => py "Use formal academic language with proper citations style."
  | friendly => py "Be warm, approachable, and encouraging in your response."
  end.

(** The structural instruction of a category; [translation] and [general]
    have none. *)
Definition structure_line (c : TaskCategory) : str :=
  match c with
  | coding =>
      py "Structure your response with: explanation, code, and usage example."
  | analysis =>
      py "Organize your analysis with clear sections, bullet points, and a "
      ++ py "conclusion."
  | writing => py "Use proper headings, paragraphs, and a logical flow."
  | explanation =>
      py "Start with a simple overview, then progressively add detail."
  | debugging =>
      py "Structure: identify the bug " ++ [8594%N] ++ py " explain the cause "
      ++ [8594%N] ++ py " provide the fix " ++ [8594%N]
      ++ py " suggest prevention."
  | brainstorming =>
      py "Present ideas in a numbered list with brief descriptions."
  | summarization =>
      py "Provide an executive summary, then key bullet points."
  | translation | general => []
  end.

Definition blank_line : str := [10%N; 10%N].
Definition line_end : str := [10%N].

(** The text that goes with a technique tag. *)
Definition block_of (raw : str) (c : TaskCategory) (tone : Tone)
    (ctx : option str) (tag : str) : str :=
  if decide (tag = py "role_framing")
  then persona_line c ++ blank_line ++ strip raw
  else if decide (tag = py "tone_styling")
  then blank_line ++ tone_line tone
  else if decide (tag = py "specificity_boost")
  then blank_line ++ py "Please be specific and detailed in your response. "
       ++ py "Include concrete examples where relevant."
  else if decide (tag = py "structure_guidance")
  then blank_line ++ structure_line c
  else if decide (tag = py "context_injection")
  then blank_line ++ py "Additional context:" ++ line_end
       ++ match ctx with Some given => given | None => [] end
  else if decide (tag = py "quality_guardrails")
  then blank_line ++ py "Important guidelines:" ++ line_end
       ++ py "- If you're unsure about something, say so rather than guessing"
       ++ line_end ++ py "- Prioritize accuracy over completeness"
       ++ line_end ++ py "- Use concrete examples to illustrate points"
  else [].

End TechniqueSpec.

(** * Properties *)

(** ** Python strings *)

Module StrProps.

Import ReplaceSpec.

Example split_strip_examples :
  split (py "  explain   recursion ") = [py "explain"; py "recursion"]
  /\ split (py " ") = []
  /\ strip (py "  a b  ") = py "a b"
  /\ strip ([10; 9] ++ py "x" ++ [160; 8195])%N = py "x".
Proof. repeat split. Qed.

Example replace_examples :
  replace (py "{a}") (py "XY") (py "{a}{a} b {a") = py "XYXY b {a"
  /\ replace (py "aa") (py "b") (py "aaaaa") = py "bba"
  /\ replace (py "") (py "-") (py "abc") = py "-a-b-c-"
  /\ replace (py "x") (py "y") (py "") = py "".
Proof. repeat split. Qed.

Lemma split_from_word (cur s : str) : cur <> [] -> split_from cur s <> [].
Proof.
  revert cur. induction s as [|c s IH]; intros cur Hcur; simpl.
  - destruct cur; [congruence | discriminate].
  - destruct (isspace c).
    + destruct cur; [congruence | discriminate].
    + apply IH. discriminate.
Qed.

Lemma split_nil_blank (s : str) : split s = [] -> lstrip s = [].
Proof.
  unfold split. induction s as [|c s IH]; simpl; [reflexivity |].
  destruct (isspace c); [exact IH |].
  intros H. exfalso. revert H. apply split_from_word. discriminate.
Qed.

(** A text without words is all whitespace, and stripping empties it. *)
Lemma split_nil_strip (s : str) : split s = [] -> strip s = [].
Proof. intros H. unfold strip. rewrite (split_nil_blank s H). reflexivity. Qed.

Lemma startswith_iff (p s : str) :
  startswith p s = true <-> exists rest, s = p ++ rest.
Proof.
  revert s. induction p as [|a p IH]; intros s; simpl.
  - split; [intros _; now exists s | reflexivity].
  - destruct s as [|b s].
    + split; [discriminate | intros [rest H]; discriminate].
    + rewrite andb_true_iff, N.eqb_eq, IH. split.
      * intros [-> [rest ->]]. now exists rest.
      * intros [rest [= -> ->]]. split; [reflexivity | now exists rest].
Qed.

(** The [in] test finds exactly the contiguous occurrences. *)
Lemma contains_iff (sub s : str) :
  contains sub s = true <-> exists pre post, s = pre ++ sub ++ post.
Proof.
  induction s as [|c s IH]; simpl.
  - rewrite orb_false_r, startswith_iff. split.
    + intros [rest H]. now exists [], rest.
    + intros [pre [post H]]. destruct pre; [now exists post |].
      discriminate.
  - rewrite orb_true_iff, startswith_iff, IH. split.
    + intros [[rest H] | [pre [post H]]].
      * now exists [], rest.
      * exists (c :: pre), post. simpl. now rewrite H.
    + intros [pre [post H]]. destruct pre as [|x pre].
      * left. now exists post.
      * right. injection H as _ H. now exists pre, post.
Qed.

Lemma occurs_at_0 (old s : str) : occurs_at old s 0 <-> startswith old s = true.
Proof.
  rewrite startswith_iff. unfold occurs_at. split.
  - intros (pre & post & -> & Hlen).
    apply length_zero_iff_nil in Hlen. subst pre. now exists post.
  - intros [rest ->]. now exists [], rest.
Qed.

Lemma occurs_at_S (old : str) (c : char) (s : str) (i : nat) :
  occurs_at old (c :: s) (S i) <-> occurs_at old s i.
Proof.
  unfold occurs_at. split.
  - intros (pre & post & H & Hlen). destruct pre as [|x pre]; [discriminate |].
    injection H as _ H. injection Hlen as Hlen. now exists pre, post.
  - intros (pre & post & -> & Hlen). exists (c :: pre), post. simpl. auto.
Qed.

Lemma occurs_at_nil (old : str) (i : nat) : old <> [] -> ~ occurs_at old [] i.
Proof.
  intros Hold (pre & post & H & _). symmetry in H.
  apply app_eq_nil in H as [_ H]. apply app_eq_nil in H as [H _]. contradiction.
Qed.

(** *** The three equations of the scan *)

Lemma replace_scan_skip (old new p post : str) :
  replace_scan old new (length p) (p ++ post) = replace_scan old new 0 post.
Proof. induction p as [|c p IH]; simpl; [reflexivity | exact IH]. Qed.

Lemma replace_scan_hit (old new post : str) :
  old <> [] ->
  replace_scan old new 0 (old ++ post) = new ++ replace_scan old new 0 post.
Proof.
  intros Hold. destruct old as [|a old']; [contradiction |].
  change ((a :: old') ++ post) with (a :: (old' ++ post)).
  cbn [replace_scan].
  replace (startswith (a :: old') (a :: old' ++ post)) with true.
  - replace (length (a :: old') - 1)%nat with (length old') by (simpl; lia).
    now rewrite replace_scan_skip.
  - symmetry. apply startswith_iff. now exists post.
Qed.

Lemma replace_scan_miss (old new : str) (c : char) (s : str) :
  startswith old (c :: s) = false ->
  replace_scan old new 0 (c :: s) = c :: replace_scan old new 0 s.
Proof. intros H. cbn [replace_scan]. now rewrite H. Qed.

(** *** The scan against the declarative reading *)

Lemma replaced_cons (old new : str) (c : char) (s out : str) :
  startswith old (c :: s) = false ->
  replaced old new s out -> replaced old new (c :: s) (c :: out).
Proof.
  intros Hmiss H. destruct H as [s Hnone | pre post out Hfirst Hrest].
  - apply replaced_none. intros [|i].
    + rewrite occurs_at_0. congruence.
    + rewrite occurs_at_S. apply Hnone.
  - change (c :: pre ++ old ++ post) with ((c :: pre) ++ old ++ post).
    change (c :: pre ++ new ++ out) with ((c :: pre) ++ new ++ out).
    apply replaced_first; [| exact Hrest].
    intros [|i] Hi.
    + simpl. rewrite occurs_at_0. congruence.
    + simpl. rewrite occurs_at_S. apply Hfirst. simpl in Hi. lia.
Qed.

Lemma replace_scan_replaced (old new : str) (s : str) :
  old <> [] -> replaced old new s (replace_scan old new 0 s).
Proof.
  intros Hold.
  induction s as [s IH] using (induction_ltof1 _ (@length char)).
  unfold ltof in IH. destruct s as [|c s].
  - apply replaced_none. intros i. now apply occurs_at_nil.
  - destruct (startswith old (c :: s)) eqn:E.
    + apply startswith_iff in E as [post E]. rewrite E.
      rewrite replace_scan_hit by assumption.
      apply (replaced_first old new [] post); [simpl; intros; lia |].
      apply IH. apply (f_equal (@length char)) in E.
      rewrite length_app in E. destruct old; [contradiction |]. simpl in *. lia.
    + rewrite replace_scan_miss by assumption.
      apply replaced_cons; [assumption |]. apply IH. simpl. lia.
Qed.

Lemma replace_scan_none (old new s : str) :
  (forall i, ~ occurs_at old s i) -> replace_scan old new 0 s = s.
Proof.
  induction s as [|c s IH]; intros Hnone; [reflexivity |].
  rewrite replace_scan_miss.
  - f_equal. apply IH. intros i Hi. apply (Hnone (S i)). now apply occurs_at_S.
  - destruct (startswith old (c :: s)) eqn:E; [| reflexivity].
    exfalso. apply (Hnone 0%nat). now apply occurs_at_0.
Qed.

Lemma replace_scan_first (old new pre post : str) :
  old <> [] ->
  (forall i, (i < length pre)%nat -> ~ occurs_at old (pre ++ old ++ post) i) ->
  replace_scan old new 0 (pre ++ old ++ post)
  = pre ++ new ++ replace_scan old new 0 post.
Proof.
  intros Hold. induction pre as [|c pre IH]; intros Hfirst.
  - simpl app. now apply replace_scan_hit.
  - simpl app. rewrite replace_scan_miss.
    + f_equal. apply IH. intros i Hi Hocc. apply (Hfirst (S i)).
      * simpl. lia.
      * now apply occurs_at_S.
    + destruct (startswith old (c :: pre ++ old ++ post)) eqn:E; [| reflexivity].
      exfalso. apply (Hfirst 0%nat); [simpl; lia |]. now apply occurs_at_0.
Qed.

(** [replace] does what [replaced] says, and nothing else does. *)
Lemma replace_replaced (old new s : str) :
  old <> [] -> replaced old new s (replace old new s).
Proof.
  intros Hold. unfold replace. destruct old; [contradiction |].
  now apply replace_scan_replaced.
Qed.

Lemma replaced_replace (old new s out : str) :
  old <> [] -> replaced old new s out -> out = replace old new s.
Proof.
  intros Hold H.
  assert (out = replace_scan old new 0 s) as ->.
  { induction H as [s Hnone | pre post out Hfirst Hrest IH].
    - symmetry. now apply replace_scan_none.
    - rewrite replace_scan_first by assumption. now rewrite IH. }
  unfold replace. now destruct old.
Qed.

End StrProps.

(** ** The history store *)

Module HistoryProps.

Import History HistorySpec HistoryMoreSpec.

Lemma fold_max_ge (l : list Z) (a : Z) :
  (a <= fold_left (fun best x => if (best <? x)%Z then x else best) l a)%Z
  /\ Forall (fun x =>
       (x <= fold_left (fun best x => if (best <? x)%Z then x else best) l a)%Z) l.
Proof.
  revert a. induction l as [|x l IH]; intros a; simpl.
  - split; [lia | constructor].
  - destruct (IH (if (a <? x)%Z then x else a)) as [Hge Hall].
    destruct (Z.ltb_spec a x); split; try lia.
    + constructor; [lia | exact Hall].
    + constructor; [lia | exact Hall].
Qed.

Lemma fold_max_in (l : list Z) (a : Z) :
  In (fold_left (fun best x => if (best <? x)%Z then x else best) l a) (a :: l).
Proof.
  revert a. induction l as [|x l IH]; intros a; simpl.
  - now left.
  - destruct (IH (if (a <? x)%Z then x else a)) as [H | H].
    + destruct (a <? x)%Z; [right; left | left]; exact H.
    + right; right; exact H.
Qed.

Lemma max_id_is_maximum (self : HistoryManager) :
  is_maximum_id self (max_id (_entries self)).
Proof.
  unfold is_maximum_id, ids, max_id.
  destruct (_entries self) as [|e es]; simpl; [reflexivity |].
  split.
  - apply (fold_max_in (map HistoryEntry.id es) (HistoryEntry.id e)).
  - destruct (fold_max_ge (map HistoryEntry.id es) (HistoryEntry.id e)).
    now constructor.
Qed.

Lemma is_maximum_id_unique (self : HistoryManager) (m m' : Z) :
  is_maximum_id self m -> is_maximum_id self m' -> m = m'.
Proof.
  unfold is_maximum_id. destruct (ids self) as [|x l]; [congruence |].
  intros [Hin Hall] [Hin' Hall']. rewrite Forall_forall in Hall, Hall'.
  apply list_elem_of_In in Hin, Hin'.
  specialize (Hall _ Hin'). specialize (Hall' _ Hin). lia.
Qed.

Lemma max_id_bounds (self : HistoryManager) :
  Forall (fun x => (x < max_id (_entries self) + 1)%Z) (ids self).
Proof.
  pose proof (max_id_is_maximum self) as H. unfold is_maximum_id in H.
  destruct (ids self) as [|x l] eqn:E; [constructor |].
  destruct H as [_ H]. eapply Forall_impl; [exact H |].
  simpl; intros; lia.
Qed.

Lemma star_first_ids (entry_id : Z) (entries : list HistoryEntry.t) e entries' :
  star_first entry_id entries = Some (e, entries') ->
  map HistoryEntry.id entries' = map HistoryEntry.id entries.
Proof.
  revert e entries'. induction entries as [|x xs IH]; intros e entries'; simpl.
  - discriminate.
  - destruct (HistoryEntry.id x =? entry_id)%Z.
    + intros [= <- <-]. reflexivity.
    + destruct (star_first entry_id xs) as [[e1 es1]|]; [| discriminate].
      intros [= <- <-]. simpl. f_equal. eapply IH; reflexivity.
Qed.

Lemma ids_star (entry_id : Z) (self : HistoryManager) :
  ids (snd (star entry_id self)) = ids self.
Proof.
  unfold star, ids.
  destruct (star_first entry_id (_entries self)) as [[e es]|] eqn:E; simpl.
  - eapply star_first_ids; exact E.
  - reflexivity.
Qed.

Lemma ids_delete (entry_id : Z) (self : HistoryManager) :
  ids (snd (delete entry_id self))
  = List.filter (fun x => negb (x =? entry_id)%Z) (ids self).
Proof.
  unfold delete, ids.
  assert (forall l, map HistoryEntry.id
            (List.filter (fun e => negb (HistoryEntry.id e =? entry_id)%Z) l)
          = List.filter (fun x => negb (x =? entry_id)%Z)
              (map HistoryEntry.id l)) as Hmap.
  { induction l as [|x l IH]; simpl; [reflexivity |].
    destruct (HistoryEntry.id x =? entry_id)%Z; simpl; now rewrite IH. }
  destruct (_ <? _)%nat; simpl; apply Hmap.
Qed.

Lemma ids_add now original enhanced category tone (self : HistoryManager) :
  ids (snd (add now original enhanced category tone self))
  = ids self ++ [(max_id (_entries self) + 1)%Z].
Proof. unfold add, ids; simpl. now rewrite map_app. Qed.

Lemma sorted_filter (f : Z -> bool) (l : list Z) :
  StronglySorted Z.lt l -> StronglySorted Z.lt (List.filter f l).
Proof.
  induction 1 as [|x l Hs IH Hall]; simpl; [constructor |].
  destruct (f x); [| exact IH].
  constructor; [exact IH |].
  rewrite Forall_forall in *. intros y Hy.
  apply Hall. apply list_elem_of_In. apply list_elem_of_In in Hy.
  apply filter_In in Hy. tauto.
Qed.

Lemma step_increasing (o : op) (self : HistoryManager) :
  increasing self -> increasing (step o self).
Proof.
  unfold increasing. intros Hs. destruct o; unfold step.
  - rewrite ids_add. apply StronglySorted_app. repeat split.
    + intros x1 x2 H1 H2. apply list_elem_of_singleton in H2. subst x2.
      pose proof (max_id_bounds self) as Hb.
      rewrite Forall_forall in Hb. now apply Hb.
    + exact Hs.
    + repeat constructor.
  - now rewrite ids_star.
  - rewrite ids_delete. now apply sorted_filter.
  - constructor.
Qed.

Lemma run_increasing (ops : list op) (self : HistoryManager) :
  increasing self -> increasing (run ops self).
Proof.
  revert self. induction ops as [|o ops IH]; intros self H; simpl.
  - exact H.
  - apply IH. now apply step_increasing.
Qed.

Lemma sorted_NoDup (l : list Z) : StronglySorted Z.lt l -> List.NoDup l.
Proof.
  induction 1 as [|x l Hs IH Hall]; constructor; [| exact IH].
  intros Hin. rewrite Forall_forall in Hall.
  apply list_elem_of_In in Hin. specialize (Hall x Hin). lia.
Qed.

Lemma star_first_none (entry_id : Z) (entries : list HistoryEntry.t) :
  star_first entry_id entries = None <->
  ~ In entry_id (map HistoryEntry.id entries).
Proof.
  induction entries as [|x xs IH]; simpl.
  - tauto.
  - destruct (Z.eqb_spec (HistoryEntry.id x) entry_id) as [Heq | Hne].
    + split; [discriminate | intros H; destruct H; now left].
    + destruct (star_first entry_id xs) as [[e es]|].
      * split; [discriminate |]. intros H. exfalso.
        destruct IH as [_ IH].
        assert (@Some (HistoryEntry.t * list HistoryEntry.t) (e, es) = None)
          as Habs by (apply IH; tauto).
        discriminate Habs.
      * split; [| reflexivity]. intros _ [H | H]; [contradiction |].
        now apply (proj1 IH).
Qed.

Lemma star_first_twice (entry_id : Z) (entries entries' : list HistoryEntry.t)
    (e : HistoryEntry.t) :
  star_first entry_id entries = Some (e, entries') ->
  exists e0,
    star_first entry_id entries' = Some (e0, entries)
    /\ In e0 entries
    /\ HistoryEntry.id e0 = entry_id
    /\ HistoryEntry.id e = entry_id
    /\ HistoryEntry.starred e = negb (HistoryEntry.starred e0).
Proof.
  revert entries' e. induction entries as [|x xs IH]; intros entries' e; simpl.
  - discriminate.
  - destruct (Z.eqb_spec (HistoryEntry.id x) entry_id) as [Heq | Hne].
    + intros [= <- <-]. simpl. rewrite (proj2 (Z.eqb_eq _ _) Heq).
      exists x. destruct x as [i o en c t ts st]; simpl in *.
      rewrite negb_involutive. auto.
    + destruct (star_first entry_id xs) as [[e1 es1]|] eqn:E; [| discriminate].
      intros [= <- <-]. simpl.
      rewrite (proj2 (Z.eqb_neq _ _) Hne).
      destruct (IH es1 e1 eq_refl) as (e0 & -> & Hin & Hid & Hid' & Hst).
      exists e0. auto.
Qed.

Lemma star_first_split (entry_id : Z) (entries entries' : list HistoryEntry.t)
    (e : HistoryEntry.t) :
  star_first entry_id entries = Some (e, entries') ->
  exists pre e0 post,
    entries = pre ++ e0 :: post
    /\ ~ In entry_id (map HistoryEntry.id pre)
    /\ HistoryEntry.id e0 = entry_id
    /\ e = flipped e0
    /\ entries' = pre ++ flipped e0 :: post.
Proof.
  revert entries' e. induction entries as [|x xs IH]; intros entries' e; simpl.
  - discriminate.
  - destruct (Z.eqb_spec (HistoryEntry.id x) entry_id) as [Heq | Hne].
    + intros [= <- <-]. exists [], x, xs. simpl. tauto.
    + destruct (star_first entry_id xs) as [[e1 es1]|] eqn:E; [| discriminate].
      intros [= <- <-].
      destruct (IH es1 e1 eq_refl) as (pre & e0 & post & -> & Hpre & Hid & -> & ->).
      exists (x :: pre), e0, post. simpl. repeat split; try reflexivity.
      * intros [H | H]; [contradiction | now apply Hpre].
      * exact Hid.
Qed.

(** X3: starring.  An unknown id yields nothing and leaves the store as it
    is.  A known id picks the first entry that carries it: the entry
    returned is that entry with its flag flipped and every other field
    kept, the store holds it in the same place with all other entries
    untouched, the file holds the new entries, the count is kept, and
    starring the same id again restores the entry list. *)
Theorem star_toggles_and_twice_restores (entry_id : Z)
    (self : HistoryManager) :
  match fst (star entry_id self) with
  | None => ~ In entry_id (ids self) /\ snd (star entry_id self) = self
  | Some e =>
      exists pre e0 post,
        _entries self = pre ++ e0 :: post
        /\ ~ In entry_id (map HistoryEntry.id pre)
        /\ HistoryEntry.id e0 = entry_id
        /\ e = flipped e0
        /\ _entries (snd (star entry_id self)) = pre ++ flipped e0 :: post
        /\ _path (snd (star entry_id self))
           = Dumped (pre ++ flipped e0 :: post)
        /\ count (snd (star entry_id self)) = count self
        /\ _entries (snd (star entry_id (snd (star entry_id self))))
           = _entries self
  end.
Proof.
  unfold star, count.
  destruct (star_first entry_id (_entries self)) as [[e es]|] eqn:E;
    cbn [fst snd _save _entries _path].
  - destruct (star_first_split _ _ _ _ E)
      as (pre & e0 & post & Hself & Hpre & Hid & He & Hes).
    destruct (star_first_twice _ _ _ _ E) as (e1 & Htwice & _).
    exists pre, e0, post. rewrite Htwice. cbn [fst snd _save _entries _path].
    repeat split; try assumption.
    + now rewrite Hes.
    + rewrite Hes, Hself, !length_app. reflexivity.
  - split; [now apply star_first_none | reflexivity].
Qed.

Lemma slice_to_prefix {A} (limit : Z) (items : list A) :
  exists dropped, items = slice_to limit items ++ dropped.
Proof.
  unfold slice_to. destruct (limit <? 0)%Z; eexists;
    symmetry; apply firstn_skipn.
Qed.

Lemma slice_to_length {A} (limit : Z) (items : list A) :
  (0 <= limit)%Z ->
  length (slice_to limit items) = Nat.min (Z.to_nat limit) (length items).
Proof.
  intros H. unfold slice_to.
  destruct (Z.ltb_spec limit 0); [lia |]. apply length_firstn.
Qed.

Lemma filter_filter_andb {A} (f g : A -> bool) (l : list A) :
  List.filter g (List.filter f l) = List.filter (fun x => f x && g x) l.
Proof.
  induction l as [|x l IH]; simpl; [reflexivity |].
  destruct (f x); simpl; [destruct (g x) |]; now rewrite IH.
Qed.

(** X4: searching: the result is the newest-first list of the entries that
    match the query, cut after the first [limit] of them. *)
Theorem search_newest_first_matches {rt : PyRuntime} (query : str)
    (limit : Z) (self : HistoryManager) :
  (exists dropped,
     List.filter (matches query) (rev (_entries self))
     = search query limit self ++ dropped)
  /\ Forall (fun e => matches query e = true /\ In e (_entries self))
       (search query limit self)
  /\ ((0 <= limit)%Z ->
      length (search query limit self)
      = Nat.min (Z.to_nat limit)
          (length (List.filter (matches query) (_entries self)))).
Proof.
  unfold search. fold (matches query).
  change (fun e => contains (str_lower query)
                     (str_lower (HistoryEntry.original e))
                   || contains (str_lower query)
                        (str_lower (HistoryEntry.enhanced e)))
    with (matches query).
  split; [apply slice_to_prefix |]. split.
  - destruct (slice_to_prefix limit
                (List.filter (matches query) (rev (_entries self))))
      as [dropped Hd].
    rewrite Forall_forall. intros e He. apply list_elem_of_In in He.
    assert (In e (List.filter (matches query) (rev (_entries self)))) as Hin
      by (rewrite Hd; apply in_or_app; now left).
    apply filter_In in Hin as [Hin Hm]. split; [exact Hm |].
    now apply in_rev.
  - intros H. rewrite slice_to_length by assumption.
    f_equal. clear. induction (_entries self) as [|x l IH]; [reflexivity |].
    simpl. rewrite List.filter_app, length_app, IH. simpl.
    destruct (matches query x); simpl; lia.
Qed.

(** X5: listing: the result is the newest-first list of the entries that pass
    the category and starred filters, cut after the first [limit] of
    them. *)
Theorem list_newest_first_filtered (category : option TaskCategory)
    (limit : Z) (starred_only : bool) (self : HistoryManager) :
  (exists dropped,
     List.filter (listed category starred_only) (rev (_entries self))
     = list_ category limit starred_only self ++ dropped)
  /\ ((0 <= limit)%Z ->
      length (list_ category limit starred_only self)
      = Nat.min (Z.to_nat limit)
          (length (List.filter (listed category starred_only)
                     (_entries self)))).
Proof.
  assert (list_ category limit starred_only self
          = slice_to limit
              (List.filter (listed category starred_only)
                 (rev (_entries self)))) as ->.
  { unfold list_, listed. f_equal.
    destruct category as [c|], starred_only; simpl.
    - apply filter_filter_andb.
    - apply List.filter_ext. intros e. now rewrite andb_true_r.
    - reflexivity.
    - induction (rev (_entries self)) as [|x l IH]; simpl; congruence. }
  split; [apply slice_to_prefix |].
  intros H. rewrite slice_to_length by assumption.
  f_equal. induction (_entries self) as [|x l IH]; [reflexivity |].
  simpl. rewrite List.filter_app, length_app, IH. simpl.
  destruct (listed category starred_only x); simpl; lia.
Qed.

(** C5: on every store, [add] gives the new entry the greatest id in use
    (0 when there is none) plus one, appends it, and so raises [count] by
    exactly one; after [clear] the count is 0 and the next [add] yields
    id 1. *)
Theorem add_assigns_max_id_plus_one
    (now : datetime) (original enhanced : str) (category : TaskCategory)
    (tone : Tone) (self : HistoryManager) :
  let r := add now original enhanced category tone self in
  (exists m, is_maximum_id self m /\ HistoryEntry.id (fst r) = (m + 1)%Z)
  /\ _entries (snd r) = _entries self ++ [fst r]
  /\ count (snd r) = (count self + 1)%Z
  /\ count (snd (clear self)) = 0%Z
  /\ HistoryEntry.id
       (fst (add now original enhanced category tone (snd (clear self)))) = 1%Z.
Proof.
  cbv zeta. split; [| split; [| split; [| split]]].
  - exists (max_id (_entries self)).
    split; [apply max_id_is_maximum | reflexivity].
  - reflexivity.
  - unfold count, add; simpl. rewrite length_app; simpl. lia.
  - reflexivity.
  - reflexivity.
Qed.

(** C9: the entry list of the store is strictly increasing by id, hence
    free of duplicate ids: this holds of the empty store, every operation
    ([add], [star], [delete], [clear]) keeps it, and so it holds after any
    sequence of operations run from an empty store. *)
Theorem history_ids_strictly_increasing :
  (forall self, _entries self = [] -> increasing self)
  /\ (forall o self, increasing self -> increasing (step o self))
  /\ (forall ops self, _entries self = [] ->
        increasing (run ops self) /\ List.NoDup (ids (run ops self))).
Proof.
  assert (forall self, _entries self = [] -> increasing self) as Hempty.
  { intros self H. unfold increasing, ids. rewrite H. constructor. }
  split; [exact Hempty |]. split; [exact step_increasing |].
  intros ops self H.
  assert (increasing (run ops self)) as Hinc
    by (apply run_increasing, Hempty, H).
  split; [exact Hinc | apply sorted_NoDup, Hinc].
Qed.

Lemma history_ids_strictly_increasing_witness :
  ids (run Samples.sample_ops Samples.no_history) = [1%Z; 3%Z; 4%Z]
  /\ increasing (run Samples.sample_ops Samples.no_history)
  /\ List.NoDup (ids (run Samples.sample_ops Samples.no_history)).
Proof.
  split; [reflexivity |].
  apply (proj2 (proj2 history_ids_strictly_increasing)
           Samples.sample_ops Samples.no_history).
  reflexivity.
Defined.

End HistoryProps.

(** ** Category detection *)

Module DetectProps.

Import Enhancer EnhancerSpec.

Lemma count_keywords_eq (lower : str) (category : TaskCategory)
    (keywords : list str) (scores : scores_t) (c : TaskCategory) :
  count_keywords lower category keywords scores c
  = (scores c + if decide (c = category)
                then Z.of_nat (length (matching lower keywords)) else 0)%Z.
Proof.
  unfold count_keywords, matching.
  revert scores. induction keywords as [|kw kws IH]; intros scores; simpl.
  - destruct (decide (c = category)); lia.
  - rewrite IH. destruct (contains kw lower); [| reflexivity].
    unfold incr. simpl length. destruct (decide (c = category)); lia.
Qed.

Lemma table_scores_eq (lower : str) (table : list (TaskCategory * list str))
    (scores : scores_t) (c : TaskCategory) :
  fold_left (fun sc entry => count_keywords lower (fst entry) (snd entry) sc)
    table scores c
  = (scores c
     + Z.of_nat (length (matching lower
         (concat (map snd
            (List.filter (fun entry => bool_decide (fst entry = c)) table))))))%Z.
Proof.
  revert scores. induction table as [|[cat kws] table IH]; intros scores; simpl.
  - lia.
  - rewrite IH, count_keywords_eq. unfold matching in *.
    destruct (decide (c = cat)) as [->|Hne].
    + rewrite bool_decide_eq_true_2 by reflexivity. simpl.
      rewrite List.filter_app, length_app. lia.
    + rewrite bool_decide_eq_false_2 by congruence. lia.
Qed.

(** The two loops compute, for each category, the number of its keywords
    that occur in the text. *)
Lemma keyword_scores_hits (lower : str) (c : TaskCategory) :
  keyword_scores lower c = Z.of_nat (keyword_hits lower c).
Proof.
  unfold keyword_scores, keyword_hits, keywords_of.
  rewrite table_scores_eq. reflexivity.
Qed.

Lemma max_key_ge {A} (key : A -> Z) (xs : list A) (x : A) :
  Forall (fun y => (key y <= key (max_key key x xs))%Z) (x :: xs).
Proof.
  unfold max_key. revert x. induction xs as [|y ys IH]; intros x; simpl.
  - constructor; [lia | constructor].
  - specialize (IH (if (key x <? key y)%Z then y else x)).
    apply Forall_cons in IH as [Hb Hys].
    destruct (Z.ltb_spec (key x) (key y)); repeat constructor; try lia; exact Hys.
Qed.

Lemma fold_max_first {A} (key : A -> Z) (xs pre mid : list A) (best : A) :
  Forall (fun y => (key y < key best)%Z) pre ->
  Forall (fun y => (key y <= key best)%Z) mid ->
  first_maximum key (pre ++ best :: mid ++ xs)
    (fold_left (fun best y => if (key best <? key y)%Z then y else best)
       xs best).
Proof.
  revert pre mid best. induction xs as [|y ys IH]; intros pre mid best Hpre Hmid.
  - simpl. exists pre, mid. rewrite app_nil_r. auto.
  - simpl. destruct (Z.ltb_spec (key best) (key y)) as [Hlt | Hge].
    + replace (pre ++ best :: mid ++ y :: ys)
        with ((pre ++ best :: mid) ++ y :: [] ++ ys)
        by (now rewrite <- app_assoc).
      apply IH; [| constructor].
      apply Forall_app. split.
      * eapply Forall_impl; [exact Hpre |]. simpl; intros; lia.
      * constructor; [exact Hlt |].
        eapply Forall_impl; [exact Hmid |]. simpl; intros; lia.
    + replace (pre ++ best :: mid ++ y :: ys)
        with (pre ++ best :: (mid ++ [y]) ++ ys)
        by (now rewrite <- app_assoc).
      apply IH; [exact Hpre |].
      apply Forall_app. split; [exact Hmid |]. constructor; [lia | constructor].
Qed.

(** [max] returns the first of the greatest elements. *)
Lemma max_key_first {A} (key : A -> Z) (xs : list A) (x : A) :
  first_maximum key (x :: xs) (max_key key x xs).
Proof. apply (fold_max_first key xs [] [] x); constructor. Qed.

Lemma all_categories_complete (c : TaskCategory) : In c all_categories.
Proof. destruct c; simpl; tauto. Qed.

Section WithRuntime.
Context {rt : PyRuntime}.

(** C3: with the score of a category being the number of its keywords
    that occur in the lower-cased text, [detect_category] returns
    [debugging] whenever [debugging] and [coding] both score above zero and
    [debugging] scores at least as much as [coding]; otherwise it returns
    the category whose score is strictly above every other one, and
    [general] when every score is zero. *)
Theorem detect_category_policy (text : str) :
  let score c := Z.of_nat (keyword_hits (str_lower text) c) in
  let debugging_first :=
    (0 < score debugging /\ 0 < score coding
     /\ score coding <= score debugging)%Z in
  (debugging_first -> detect_category text = debugging)
  /\ (forall c, ~ debugging_first ->
        (forall c', c' <> c -> (score c' < score c)%Z) ->
        detect_category text = c)
  /\ ((forall c, score c = 0%Z) -> detect_category text = general).
Proof.
  cbv zeta. unfold detect_category.
  set (scores := keyword_scores (str_lower text)).
  assert (forall c, Z.of_nat (keyword_hits (str_lower text) c) = scores c) as Hs
    by (intros c; symmetry; apply keyword_scores_hits).
  rewrite !Hs. setoid_rewrite Hs.
  set (best := max_key scores (hd general all_categories) (tl all_categories)).
  assert (forall c, scores c <= scores best)%Z as Hbest.
  { intros c. pose proof (max_key_ge scores (tl all_categories)
                            (hd general all_categories)) as H.
    rewrite Forall_forall in H. apply H. apply list_elem_of_In.
    apply (all_categories_complete c). }
  split; [| split].
  - intros (Hd & Hc & Hle).
    rewrite (proj2 (Z.ltb_lt _ _) Hd), (proj2 (Z.ltb_lt _ _) Hc),
      (proj2 (Z.leb_le _ _) Hle). reflexivity.
  - intros c Hnot Hstrict.
    destruct ((0 <? scores debugging)%Z && (0 <? scores coding)%Z
              && (scores coding <=? scores debugging)%Z) eqn:E.
    + exfalso. apply Hnot.
      rewrite !andb_true_iff, !Z.ltb_lt, Z.leb_le in E. tauto.
    + assert (best = c) as ->.
      { destruct (decide (best = c)) as [|Hne]; [assumption |].
        specialize (Hstrict best Hne). specialize (Hbest c). lia. }
      assert (0 < scores c)%Z as Hpos.
      { destruct (decide (c = general)) as [->|Hg].
        - specialize (Hstrict coding ltac:(discriminate)).
          pose proof (Hs coding). lia.
        - specialize (Hstrict general ltac:(congruence)).
          pose proof (Hs general). lia. }
      now rewrite (proj2 (Z.ltb_lt _ _) Hpos).
  - intros Hzero. rewrite !Hzero. reflexivity.
Qed.

(** X2: how ties are settled: when the debugging rule does not apply and some
    category scores above zero, the result is the first category, in the
    order of the [TaskCategory] enumeration, among those with the greatest
    score. *)
Theorem detect_category_ties_by_enumeration_order (text : str) :
  let score c := Z.of_nat (keyword_hits (str_lower text) c) in
  (0 < score debugging /\ 0 < score coding
   /\ score coding <= score debugging)%Z
  \/ (forall c, score c = 0%Z)
  \/ first_maximum score all_categories (detect_category text).
Proof.
  cbv zeta. unfold detect_category.
  set (scores := keyword_scores (str_lower text)).
  assert (forall c, Z.of_nat (keyword_hits (str_lower text) c) = scores c) as Hs
    by (intros c; symmetry; apply keyword_scores_hits).
  destruct ((0 <? scores debugging)%Z && (0 <? scores coding)%Z
            && (scores coding <=? scores debugging)%Z) eqn:E.
  - left. rewrite !Hs.
    rewrite !andb_true_iff, !Z.ltb_lt, Z.leb_le in E. tauto.
  - right.
    pose proof (max_key_first scores (tl all_categories)
                  (hd general all_categories)) as Hfirst.
    pose proof (max_key_ge scores (tl all_categories)
                  (hd general all_categories)) as Hge.
    set (best := max_key scores (hd general all_categories)
                   (tl all_categories)) in *.
    destruct (Z.ltb_spec 0 (scores best)) as [Hpos | Hzero].
    + right. destruct Hfirst as (pre & post & Heq & Hpre & Hpost).
      exists pre, post. split; [exact Heq |].
      split; (eapply Forall_impl; [eassumption |]);
        simpl; intros; rewrite !Hs; assumption.
    + left. intros c. rewrite Hs.
      rewrite Forall_forall in Hge.
      specialize (Hge c ltac:(apply list_elem_of_In,
                               (all_categories_complete c))).
      pose proof (Hs c). lia.
Qed.

End WithRuntime.

Lemma detect_category_policy_witness :
  detect_category (rt := Samples.ascii_runtime)
    (py "Fix this error in my code") = debugging
  /\ detect_category (rt := Samples.ascii_runtime)
       (py "explain recursion") = explanation
  /\ detect_category (rt := Samples.ascii_runtime) (py "hello world") = general.
Proof.
  split; [| split].
  - apply (proj1 (detect_category_policy (rt := Samples.ascii_runtime)
                    (py "Fix this error in my code"))).
    vm_compute. repeat split; discriminate.
  - apply (proj1 (proj2 (detect_category_policy (rt := Samples.ascii_runtime)
                           (py "explain recursion")))).
    + vm_compute. intros (H & _). discriminate H.
    + intros c' Hne. destruct c'; try (vm_compute; reflexivity).
      now destruct Hne.
  - apply (proj2 (proj2 (detect_category_policy (rt := Samples.ascii_runtime)
                           (py "hello world")))).
    intros c. destruct c; vm_compute; reflexivity.
Defined.

End DetectProps.

(** ** The enhancement pipeline *)

Module EnhancerProps.

Import Enhancer EnhancerSpec StrProps.

Lemma role_framing_eq (prompt : str) (c : TaskCategory) :
  _add_role_framing prompt c = (persona c ++ nl ++ nl ++ prompt, true).
Proof. reflexivity. Qed.

(** Every persona line followed by any tone sentence has eight words or
    more. *)
Lemma framed_blank_words (c : TaskCategory) (tone : Tone) :
  (8 <= length (split (persona c ++ nl ++ nl ++ [] ++ nl ++ nl
                        ++ get_tone_instruction tone)))%nat.
Proof. destruct c, tone; vm_compute; lia. Qed.

Lemma add_specificity_eq (raw : str) (c : TaskCategory) (tone : Tone) :
  _add_specificity (framed raw c tone) (Z.of_nat (length (split raw)))
  = (framed raw c tone ++ (if specificity_due raw then specificity_text else []),
     specificity_due raw).
Proof.
  unfold _add_specificity, specificity_due, word_count, framed.
  destruct (length (split raw)) as [|n] eqn:E.
  - apply length_zero_iff_nil in E. rewrite (split_nil_strip raw E).
    change (0 <? Z.of_nat 0)%Z with false. cbv iota.
    pose proof (framed_blank_words c tone) as H.
    destruct (Z.ltb_spec
                (Z.of_nat (length (split (persona c ++ nl ++ nl ++ []
                   ++ nl ++ nl ++ get_tone_instruction tone)))) 8); [lia |].
    simpl andb. cbv iota. now rewrite app_nil_r.
  - replace (0 <? Z.of_nat (S n))%Z with true
      by (symmetry; apply Z.ltb_lt; lia).
    replace (0 <? S n)%nat with true by reflexivity.
    rewrite andb_true_l.
    destruct (Nat.ltb_spec (S n) 8), (Z.ltb_spec (Z.of_nat (S n)) 8); try lia.
    + unfold specificity_text. now rewrite <- !app_assoc.
    + now rewrite app_nil_r.
Qed.

Lemma add_structure_eq (prompt : str) (c : TaskCategory) :
  _add_structure_request prompt c
  = (prompt ++ (if has_structure c then structure_text c else []),
     has_structure c).
Proof.
  unfold _add_structure_request, structure_text.
  destruct c; simpl; now rewrite ?app_nil_r.
Qed.

Lemma has_structure_hint (c : TaskCategory) :
  has_structure c = true <-> structure_hints c <> None.
Proof. destruct c; simpl; split; congruence. Qed.

Lemma context_due_iff (ctx : option str) :
  context_due ctx = true <-> exists c, ctx = Some c /\ c <> [].
Proof.
  destruct ctx as [[|x c]|]; simpl; split; try discriminate; try reflexivity.
  - intros [y [[= <-] H]]. congruence.
  - intros _. eexists; split; [reflexivity | discriminate].
  - intros [y [H _]]. discriminate.
Qed.

Lemma tags_specificity (b1 b2 b3 : bool) :
  In (py "specificity_boost") (technique_tags b1 b2 b3) <-> b1 = true.
Proof.
  destruct b1, b2, b3; vm_compute; split; intros H; try reflexivity;
    try discriminate; try tauto;
    repeat (destruct H as [H | H]; try discriminate H); try contradiction.
Qed.

Lemma tags_always (b1 b2 b3 : bool) :
  In (py "role_framing") (technique_tags b1 b2 b3)
  /\ In (py "tone_styling") (technique_tags b1 b2 b3)
  /\ In (py "quality_guardrails") (technique_tags b1 b2 b3).
Proof.
  unfold technique_tags. repeat split.
  - now left.
  - right; now left.
  - rewrite !in_app_iff. do 4 right. now left.
Qed.

Section WithRuntime.
Context {rt : PyRuntime}.

(** The three results of [enhance_prompt] in closed form. *)
Lemma enhance_prompt_eq (raw : str) (tone : Tone)
    (category : option TaskCategory) (ctx : option str) :
  enhance_prompt raw tone category ctx
  = (framed raw (resolved raw category) tone
     ++ (if specificity_due raw then specificity_text else [])
     ++ (if has_structure (resolved raw category)
         then structure_text (resolved raw category) else [])
     ++ (if context_due ctx then context_block (context_of ctx) else [])
     ++ guardrails_text,
     resolved raw category,
     technique_tags (specificity_due raw)
       (has_structure (resolved raw category)) (context_due ctx)).
Proof.
  unfold enhance_prompt. fold (resolved raw category).
  rewrite role_framing_eq.
  set (c := resolved raw category).
  replace ((persona c ++ nl ++ nl ++ strip raw) ++ nl ++ nl
           ++ get_tone_instruction tone)
    with (framed raw c tone) by (unfold framed; now rewrite <- !app_assoc).
  rewrite add_specificity_eq, add_structure_eq.
  unfold technique_tags, context_due, context_of, context_block,
    guardrails_text, _add_quality_guardrails.
  destruct (specificity_due raw), (has_structure c), ctx as [x|];
    try destruct (truthy x); cbv iota beta;
    rewrite ?app_nil_r, <- ?app_assoc; reflexivity.
Qed.

Lemma specificity_tag_iff (raw : str) (tone : Tone)
    (category : option TaskCategory) (ctx : option str) :
  In (py "specificity_boost") (snd (enhance_prompt raw tone category ctx))
  <-> specificity_due raw = true.
Proof. rewrite enhance_prompt_eq. cbn [snd]. apply tags_specificity. Qed.

(** X1: what the code does about the specificity request on every input:
    the tag is among the techniques exactly when the raw input has between one
    and seven words. *)
Theorem specificity_boost_present_iff (raw : str) (tone : Tone)
    (category : option TaskCategory) (ctx : option str) :
  In (py "specificity_boost") (snd (enhance_prompt raw tone category ctx))
  <-> (0 < word_count raw < 8)%nat.
Proof.
  rewrite specificity_tag_iff.
  unfold specificity_due. rewrite andb_true_iff, !Nat.ltb_lt. tauto.
Qed.

(** C2, at the input where the code departs from it: the raw prompt made
    of one space is a valid request text with no word at all, hence fewer
    than eight, and yet [specificity_boost] is not among the techniques,
    whatever the tone and the context. *)
Theorem blank_prompt_gets_no_specificity_boost
    (tone : Tone) (ctx : option str) :
  PromptRequest.valid (PromptRequest.mk (py " ") tone None ctx true None)
  /\ word_count (py " ") = 0%nat
  /\ existsb (fun t => bool_decide (t = py "specificity_boost"))
       (snd (enhance_prompt (py " ") tone None ctx)) = false.
Proof.
  split; [discriminate |]. split; [reflexivity |].
  apply not_true_is_false. intros H.
  apply existsb_exists in H as (t & Hin & Ht).
  apply bool_decide_eq_true_1 in Ht. subst t.
  apply specificity_tag_iff in Hin. vm_compute in Hin. discriminate Hin.
Qed.

(** C4: the techniques list is the sequence [role_framing],
    [tone_styling], [specificity_boost], [structure_guidance],
    [context_injection], [quality_guardrails] with some of the three middle
    tags left out: [specificity_boost] is kept only when the raw input has
    fewer than eight words, [structure_guidance] exactly when the resolved
    category has a structure hint, [context_injection] exactly when a
    non-empty context was given; the other three tags are always there. *)
Theorem techniques_in_application_order (raw : str) (tone : Tone)
    (category : option TaskCategory) (ctx : option str) :
  exists specificity structure context : bool,
    snd (enhance_prompt raw tone category ctx)
    = technique_tags specificity structure context
    /\ (specificity = true -> (word_count raw < 8)%nat)
    /\ (structure = true <->
        structure_hints (snd (fst (enhance_prompt raw tone category ctx)))
        <> None)
    /\ (context = true <-> exists c, ctx = Some c /\ c <> [])
    /\ In (py "role_framing") (snd (enhance_prompt raw tone category ctx))
    /\ In (py "tone_styling") (snd (enhance_prompt raw tone category ctx))
    /\ In (py "quality_guardrails")
         (snd (enhance_prompt raw tone category ctx)).
Proof.
  rewrite enhance_prompt_eq. cbn [fst snd].
  exists (specificity_due raw), (has_structure (resolved raw category)),
    (context_due ctx).
  split; [reflexivity |]. split; [| split; [| split]].
  - unfold specificity_due. rewrite andb_true_iff, !Nat.ltb_lt. tauto.
  - apply has_structure_hint.
  - apply context_due_iff.
  - apply tags_always.
Qed.

(** C10: the enhanced text is the persona line, a blank line, the raw
    input with its surrounding whitespace stripped, and then the appended
    parts; so it contains the stripped input as one contiguous run of
    characters. *)
Theorem enhanced_text_contains_stripped_input (raw : str) (tone : Tone)
    (category : option TaskCategory) (ctx : option str) :
  let enhanced := fst (fst (enhance_prompt raw tone category ctx)) in
  (exists appended,
     enhanced
     = persona (resolved raw category) ++ nl ++ nl ++ strip raw ++ appended)
  /\ substring (strip raw) enhanced
  /\ contains (strip raw) enhanced = true.
Proof.
  cbv zeta. rewrite enhance_prompt_eq. cbn [fst]. unfold framed.
  match goal with |- (exists a, ?e = _) /\ _ =>
    assert (exists a, e = persona (resolved raw category) ++ nl ++ nl
                          ++ strip raw ++ a) as [appended Happ]
  end.
  { eexists. rewrite <- !app_assoc. reflexivity. }
  assert (substring (strip raw)
            (persona (resolved raw category) ++ nl ++ nl ++ strip raw
             ++ appended)) as Hsub.
  { exists (persona (resolved raw category) ++ nl ++ nl), appended.
    now rewrite <- !app_assoc. }
  rewrite Happ. split; [now exists appended |].
  split; [exact Hsub | now apply contains_iff].
Qed.

End WithRuntime.

Lemma blank_prompt_gets_no_specificity_boost_witness :
  word_count (py " ") = 0%nat
  /\ snd (enhance_prompt (rt := Samples.ascii_runtime)
            (py " ") professional None None)
     = [py "role_framing"; py "tone_styling"; py "quality_guardrails"]
  /\ existsb (fun t => bool_decide (t = py "specificity_boost"))
       (snd (enhance_prompt (rt := Samples.ascii_runtime)
               (py " ") professional None None)) = false.
Proof.
  split; [reflexivity |]. split; [reflexivity |].
  apply (blank_prompt_gets_no_specificity_boost
           (rt := Samples.ascii_runtime) professional None).
Defined.

Lemma techniques_in_application_order_witness :
  exists specificity structure context : bool,
    snd (enhance_prompt (rt := Samples.ascii_runtime)
           (py "explain recursion") friendly None None)
    = technique_tags specificity structure context
    /\ (specificity = true -> (word_count (py "explain recursion") < 8)%nat)
    /\ (structure = true <->
        structure_hints
          (snd (fst (enhance_prompt (rt := Samples.ascii_runtime)
                       (py "explain recursion") friendly None None)))
        <> None)
    /\ (context = true <-> exists c, @None str = Some c /\ c <> [])
    /\ In (py "role_framing")
         (snd (enhance_prompt (rt := Samples.ascii_runtime)
                 (py "explain recursion") friendly None None))
    /\ In (py "tone_styling")
         (snd (enhance_prompt (rt := Samples.ascii_runtime)
                 (py "explain recursion") friendly None None))
    /\ In (py "quality_guardrails")
         (snd (enhance_prompt (rt := Samples.ascii_runtime)
                 (py "explain recursion") friendly None None)).
Proof.
  exact (techniques_in_application_order (rt := Samples.ascii_runtime)
           (py "explain recursion") friendly None None).
Defined.

End EnhancerProps.

(** ** The template registry *)

Module TemplateProps.

Import Templates ReplaceSpec StrProps TemplateSpec.

(** The code's placeholder and marker are the token and the bracketed name. *)
Lemma placeholder_token (var : str) : placeholder_of var = token var.
Proof. reflexivity. Qed.

Lemma marker_bracketed (var : str) : marker_of var = bracketed var.
Proof. reflexivity. Qed.

Lemma token_nonempty (var : str) : token var <> [].
Proof. discriminate. Qed.

Lemma py_get_mapping (vars : gmap str str) (var : str) :
  py_get (mapping vars) var (PyStr (marker_of var))
  = Return (PyStr (value_for vars var)).
Proof.
  unfold py_get, mapping, value_for. rewrite lookup_fmap, marker_bracketed.
  now destruct (vars !! var).
Qed.

(** On a mapping of texts the loop cannot raise: it is a fold of
    [substitute]. *)
Lemma render_vars_mapping (vars : gmap str str) (l : list str) (text : str) :
  render_vars (mapping vars) l text
  = Return (fold_left (substitute vars) l text).
Proof.
  revert text. induction l as [|var l IH]; intros text; [reflexivity |].
  cbn [render_vars fold_left]. rewrite py_get_mapping, placeholder_token.
  apply IH.
Qed.

Lemma rendered_fold (vars : gmap str str) (l : list str) (text : str) :
  rendered vars l text (fold_left (substitute vars) l text).
Proof.
  revert text. induction l as [|var l IH]; intros text; simpl.
  - constructor.
  - econstructor; [| apply IH].
    apply replace_replaced, token_nonempty.
Qed.

Lemma rendered_functional (vars : gmap str str) (l : list str)
    (text out : str) :
  rendered vars l text out -> out = fold_left (substitute vars) l text.
Proof.
  induction 1 as [text | var rest text text' out Hrep Hrest IH];
    [reflexivity |].
  simpl. unfold substitute at 2.
  now rewrite <- (replaced_replace _ _ _ _ (token_nonempty var) Hrep).
Qed.

Lemma fold_agree (vars vars' : gmap str str) (l : list str) (text : str) :
  (forall var, In var l -> vars' !! var = vars !! var) ->
  fold_left (substitute vars') l text = fold_left (substitute vars) l text.
Proof.
  revert text. induction l as [|var l IH]; intros text H; [reflexivity |].
  simpl. unfold substitute at 2 4, value_for.
  rewrite (H var) by now left.
  apply IH. intros v Hv. apply H. now right.
Qed.

Lemma render_unknown (template_id : str) (variables : pyobj) :
  TEMPLATES !! template_id = None ->
  render_template template_id variables
  = Raise (ValueError (py "Unknown template: " ++ template_id)).
Proof. intros H. unfold render_template. now rewrite H. Qed.

Lemma render_known (template_id : str) (tmpl : TemplateInfo.t)
    (vars : gmap str str) :
  TEMPLATES !! template_id = Some tmpl ->
  render_template template_id (mapping vars)
  = Return (fold_left (substitute vars) (TemplateInfo.variables tmpl)
              (TemplateInfo.template tmpl)).
Proof.
  intros H. unfold render_template. rewrite H. apply render_vars_mapping.
Qed.

(** An object without [get] makes the first pass of the loop raise. *)
Lemma render_vars_not_dict (variables : pyobj) (var : str) (vars : list str)
    (text : str) :
  (forall d, variables <> PyDict d) ->
  render_vars variables (var :: vars) text = Raise AttributeError.
Proof. intros H. destruct variables; try reflexivity. now destruct (H d). Qed.

(** C6: for a known template id and a mapping of names to texts,
    [render_template] returns the blueprint in which, for each declared
    variable in turn, every occurrence of the placeholder [{var}] has been
    replaced by the supplied value, or by the marker [[var]] when the
    mapping has no value for it; that description fixes the output, and
    keys of the mapping that are not declared variables do not change it. *)
Theorem render_template_substitutes_declared_variables
    (template_id : str) (tmpl : TemplateInfo.t) (vars : gmap str str) :
  TEMPLATES !! template_id = Some tmpl ->
  exists out,
    render_template template_id (mapping vars) = Return out
    /\ rendered vars (TemplateInfo.variables tmpl)
         (TemplateInfo.template tmpl) out
    /\ (forall out',
          rendered vars (TemplateInfo.variables tmpl)
            (TemplateInfo.template tmpl) out' -> out' = out)
    /\ (forall vars' : gmap str str,
          (forall var, In var (TemplateInfo.variables tmpl) ->
                       vars' !! var = vars !! var) ->
          render_template template_id (mapping vars') = Return out).
Proof.
  intros H. eexists. split; [apply (render_known _ _ _ H) |].
  split; [apply rendered_fold |]. split.
  - apply rendered_functional.
  - intros vars' Hagree. rewrite (render_known _ _ _ H).
    now rewrite (fold_agree vars vars').
Qed.

Lemma render_template_substitutes_declared_variables_witness :
  exists out,
    render_template (py "code-write") (mapping MoreSamples.language_only)
    = Return out
    /\ rendered MoreSamples.language_only
         (TemplateInfo.variables code_write)
         (TemplateInfo.template code_write) out
    /\ (forall out',
          rendered MoreSamples.language_only
            (TemplateInfo.variables code_write)
            (TemplateInfo.template code_write) out' -> out' = out)
    /\ (forall vars' : gmap str str,
          (forall var, In var (TemplateInfo.variables code_write) ->
                       vars' !! var = MoreSamples.language_only !! var) ->
          render_template (py "code-write") (mapping vars') = Return out).
Proof.
  apply (render_template_substitutes_declared_variables
           (py "code-write") code_write MoreSamples.language_only).
  reflexivity.
Defined.

(** C8: for an id that is not in the registry, [render_template] raises
    the [ValueError] "Unknown template: id" whatever the variables are, and
    returns no text; for an id of the registry and any mapping of names to
    texts it returns a text and raises nothing. *)
Theorem render_template_fails_only_on_unknown_id (template_id : str) :
  (TEMPLATES !! template_id = None ->
     forall variables : pyobj,
       render_template template_id variables
       = Raise (ValueError (py "Unknown template: " ++ template_id)))
  /\ (is_Some (TEMPLATES !! template_id) ->
        forall vars : gmap str str,
          exists text,
            render_template template_id (mapping vars) = Return text).
Proof.
  split.
  - intros H variables. now apply render_unknown.
  - intros [tmpl H] vars. eexists. apply (render_known _ _ _ H).
Qed.

Lemma render_template_fails_only_on_unknown_id_witness :
  render_template (py "nonexistent") (mapping Samples.go_variables)
  = Raise (ValueError (py "Unknown template: nonexistent"))
  /\ exists text,
       render_template (py "code-write") (mapping Samples.go_variables)
       = Return text.
Proof.
  split.
  - apply (proj1 (render_template_fails_only_on_unknown_id (py "nonexistent"))).
    reflexivity.
  - apply (proj2 (render_template_fails_only_on_unknown_id (py "code-write"))).
    eexists. reflexivity.
Defined.

End TemplateProps.

(** ** The engine *)

Module EngineProps.

Import Engine Templates TemplateSpec TemplateProps EnhancerSpec EngineSpec
  History.

Lemma fallback_is_mapping (base_prompt : str) :
  fallback_variables base_prompt = mapping (fallback_mapping base_prompt).
Proof.
  unfold fallback_variables, fallback_mapping, mapping.
  now rewrite !fmap_insert, fmap_empty.
Qed.

Section WithRuntime.
Context {rt : PyRuntime}.

Lemma working_text_base (request : PromptRequest.t) (text : str) :
  working_text request text -> base_prompt_of request = Return text.
Proof.
  unfold base_prompt_of.
  intros [Hunset | tid variables text' Hid Hne Hload Hrender].
  - unfold is_set in Hunset.
    destruct (PromptRequest.template_id request) as [tid|];
      [now rewrite Hunset | reflexivity].
  - rewrite Hid. destruct tid; [contradiction |]. simpl truthy. cbv iota.
    rewrite Hload. exact Hrender.
Qed.

(** Once step 1 has produced the working text, [process] cannot raise: it
    returns [outcome] and the history with that result added. *)
Lemma process_on_working_text (now_result now_entry : datetime)
    (request : PromptRequest.t) (self : HistoryManager) (text : str) :
  working_text request text ->
  process now_result now_entry request self
  = Return
      (outcome now_result request text,
       snd (add now_entry (PromptRequest.raw_prompt request)
              (EnhancedPrompt.enhanced (outcome now_result request text))
              (EnhancedPrompt.category (outcome now_result request text))
              (PromptRequest.tone request) self)).
Proof.
  intros Htext. unfold process, outcome.
  rewrite (working_text_base _ _ Htext).
  unfold context_due, context_of, context_block.
  destruct (PromptRequest.auto_enhance request).
  - cbn [mbind except_bind].
    destruct (Enhancer.enhance_prompt text (PromptRequest.tone request)
                (PromptRequest.category request)
                (PromptRequest.context request)) as [[e c] t].
    reflexivity.
  - destruct (PromptRequest.context request) as [ctx|]; simpl;
      [destruct (truthy ctx) |]; simpl; rewrite ?app_nil_r; reflexivity.
Qed.

(** With a known template and a prompt that [json.loads] rejects, the
    working text is the template rendered on the fallback mapping. *)
Lemma fallback_when_not_json (request : PromptRequest.t) (template_id : str)
    (tmpl : TemplateInfo.t) :
  PromptRequest.template_id request = Some template_id ->
  template_id <> [] ->
  TEMPLATES !! template_id = Some tmpl ->
  json_loads (PromptRequest.raw_prompt request) = Raise JSONDecodeError
  \/ json_loads (PromptRequest.raw_prompt request) = Raise TypeError ->
  load_variables (PromptRequest.raw_prompt request)
  = Return (fallback_variables (PromptRequest.raw_prompt request))
  /\ working_text request
       (fold_left
          (substitute (fallback_mapping (PromptRequest.raw_prompt request)))
          (TemplateInfo.variables tmpl) (TemplateInfo.template tmpl)).
Proof.
  intros Hid Hne Hknown Hloads.
  assert (load_variables (PromptRequest.raw_prompt request)
          = Return (fallback_variables (PromptRequest.raw_prompt request)))
    as Hload.
  { unfold load_variables. destruct Hloads as [-> | ->]; reflexivity. }
  split; [exact Hload |].
  eapply working_rendered; [exact Hid | exact Hne | exact Hload |].
  rewrite fallback_is_mapping. apply (render_known _ _ _ Hknown).
Qed.

(** A prompt that is JSON but no object: [json.loads] returns the value
    and raises nothing, the fallback mapping is not used, and rendering a
    template on the value raises [AttributeError], which [process] passes on
    to its caller. *)
Lemma numeric_prompt_with_template_raises
    (now_result now_entry : datetime) (tone : Tone)
    (category : option TaskCategory) (context : option str)
    (auto_enhance : bool) (self : HistoryManager) :
  json_loads (py "123") = Return (PyInt 123) ->
  load_variables (py "123") = Return (PyInt 123)
  /\ process now_result now_entry
       (PromptRequest.mk (py "123") tone category context auto_enhance
          (Some (py "code-write"))) self
     = Raise AttributeError.
Proof.
  intros H. unfold process, base_prompt_of, load_variables. simpl.
  rewrite H. split; reflexivity.
Qed.

(** C1, amended: for every request whose template id names a registered
    template and whose raw prompt [json.loads] rejects, [process] recovers
    locally: it uses the fallback mapping
    [{task_description: raw, content: raw}], renders the template on it as
    C6 describes, and returns a result to the caller instead of an error. *)
Theorem process_falls_back_when_prompt_is_not_json
    (now_result now_entry : datetime) (request : PromptRequest.t)
    (self : HistoryManager) (template_id : str) (tmpl : TemplateInfo.t) :
  PromptRequest.template_id request = Some template_id ->
  template_id <> [] ->
  TEMPLATES !! template_id = Some tmpl ->
  json_loads (PromptRequest.raw_prompt request) = Raise JSONDecodeError
  \/ json_loads (PromptRequest.raw_prompt request) = Raise TypeError ->
  exists text,
    load_variables (PromptRequest.raw_prompt request)
    = Return (mapping (fallback_mapping (PromptRequest.raw_prompt request)))
    /\ render_template template_id
         (mapping (fallback_mapping (PromptRequest.raw_prompt request)))
       = Return text
    /\ rendered (fallback_mapping (PromptRequest.raw_prompt request))
         (TemplateInfo.variables tmpl) (TemplateInfo.template tmpl) text
    /\ base_prompt_of request = Return text
    /\ exists self',
         process now_result now_entry request self
         = Return (outcome now_result request text, self').
Proof.
  intros Hid Hne Hknown Hloads.
  destruct (fallback_when_not_json request template_id tmpl
              Hid Hne Hknown Hloads) as [Hload Htext].
  eexists. rewrite <- fallback_is_mapping.
  split; [exact Hload |].
  split; [rewrite fallback_is_mapping; apply (render_known _ _ _ Hknown) |].
  split; [apply rendered_fold |].
  split; [now apply working_text_base |].
  eexists. now apply process_on_working_text.
Qed.

(** C7, amended: a request with [auto_enhance] off whose first step yields
    a working text (the raw prompt when no template is selected, the
    rendering of the selected template otherwise) makes [process] return a
    result with no technique, with the forced category or else [general],
    and with the working text followed by the labelled context block when a
    non-empty context was given; the original is the raw prompt and the
    result is added to the history. *)
Theorem process_without_auto_enhance (now_result now_entry : datetime)
    (request : PromptRequest.t) (self : HistoryManager) (text : str) :
  PromptRequest.auto_enhance request = false ->
  working_text request text ->
  let enhanced :=
    text ++ (if context_due (PromptRequest.context request)
             then context_block (context_of (PromptRequest.context request))
             else []) in
  let category :=
    match PromptRequest.category request with
    | Some c => c
    | None => general
    end in
  process now_result now_entry request self
  = Return
      (EnhancedPrompt.mk (PromptRequest.raw_prompt request) enhanced category
         (PromptRequest.tone request) [] now_result,
       snd (add now_entry (PromptRequest.raw_prompt request) enhanced category
              (PromptRequest.tone request) self)).
Proof.
  intros Hauto Htext. cbv zeta.
  rewrite (process_on_working_text _ _ _ _ _ Htext).
  unfold outcome. rewrite Hauto. reflexivity.
Qed.

End WithRuntime.

(** C1 as stated fails on two requests whose prompt is no mapping of names
    to texts.  With a template id that is not registered the fallback
    mapping is used, and the [ValueError] of [render_template] reaches the
    caller.  With the prompt [123], which is JSON, no fallback takes place
    and [AttributeError] reaches the caller. *)
Lemma fallback_claim_counterexample :
  (is_set (PromptRequest.template_id Samples.unknown_request) = true
   /\ ~ parses_as_mapping (rt := Samples.ascii_runtime)
         (PromptRequest.raw_prompt Samples.unknown_request)
   /\ load_variables (rt := Samples.ascii_runtime)
        (PromptRequest.raw_prompt Samples.unknown_request)
      = Return (fallback_variables
                  (PromptRequest.raw_prompt Samples.unknown_request))
   /\ process (rt := Samples.ascii_runtime) 0%Z 0%Z Samples.unknown_request
        Samples.no_history
      = Raise (ValueError (py "Unknown template: nope")))
  /\ (is_set (PromptRequest.template_id Samples.numeric_request) = true
      /\ ~ parses_as_mapping (rt := Samples.ascii_runtime)
            (PromptRequest.raw_prompt Samples.numeric_request)
      /\ process (rt := Samples.ascii_runtime) 0%Z 0%Z Samples.numeric_request
           Samples.no_history
         = Raise AttributeError).
Proof.
  split; [split; [reflexivity | split; [| split; reflexivity]]
         | split; [reflexivity | split]].
  - intros [vars H]. discriminate H.
  - intros [vars H]. discriminate H.
  - apply (numeric_prompt_with_template_raises (rt := Samples.ascii_runtime)
             0%Z 0%Z professional None None true Samples.no_history).
    reflexivity.
Qed.

Lemma process_falls_back_when_prompt_is_not_json_witness :
  exists text,
    load_variables (rt := Samples.ascii_runtime) (py "the quarterly numbers")
    = Return (mapping (fallback_mapping (py "the quarterly numbers")))
    /\ render_template (py "summarize-text")
         (mapping (fallback_mapping (py "the quarterly numbers")))
       = Return text
    /\ rendered (fallback_mapping (py "the quarterly numbers"))
         (TemplateInfo.variables summarize_text)
         (TemplateInfo.template summarize_text) text
    /\ base_prompt_of (rt := Samples.ascii_runtime) Samples.prose_request
       = Return text
    /\ exists self',
         process (rt := Samples.ascii_runtime) 5%Z 6%Z Samples.prose_request
           Samples.no_history
         = Return (outcome (rt := Samples.ascii_runtime) 5%Z
                     Samples.prose_request text, self').
Proof.
  apply (process_falls_back_when_prompt_is_not_json
           (rt := Samples.ascii_runtime) 5%Z 6%Z Samples.prose_request
           Samples.no_history (py "summarize-text") summarize_text).
  - reflexivity.
  - discriminate.
  - reflexivity.
  - left. reflexivity.
Defined.

(** C7 as stated fails on a request with [auto_enhance] off whose template
    id is not registered: [process] raises the [ValueError] of
    [render_template] and returns no result. *)
Lemma auto_enhance_off_counterexample :
  PromptRequest.auto_enhance Samples.unknown_plain_request = false
  /\ PromptRequest.valid Samples.unknown_plain_request
  /\ process (rt := Samples.ascii_runtime) 0%Z 0%Z
       Samples.unknown_plain_request Samples.no_history
     = Raise (ValueError (py "Unknown template: nope")).
Proof. split; [reflexivity | split; [discriminate | reflexivity]]. Qed.

Lemma process_without_auto_enhance_witness :
  (exists self,
     process (rt := Samples.ascii_runtime) 5%Z 6%Z Samples.plain_request
       Samples.no_history
     = Return
         (EnhancedPrompt.mk (py "sort a list")
            (py "sort a list" ++ nl ++ nl ++ py "Additional context:" ++ nl
             ++ py "Using Python 3.12")
            general professional [] 5%Z,
          self)
     /\ count self = 1%Z)
  /\ (exists text self,
        render_template (py "summarize-text")
          (fallback_variables (py "the quarterly numbers"))
        = Return text
        /\ process (rt := Samples.ascii_runtime) 5%Z 6%Z Samples.prose_request
             Samples.no_history
           = Return
               (EnhancedPrompt.mk (py "the quarterly numbers") text general
                  professional [] 5%Z,
                self)).
Proof.
  split.
  - eexists. split.
    + apply (process_without_auto_enhance (rt := Samples.ascii_runtime)
               5%Z 6%Z Samples.plain_request Samples.no_history (py "sort a list")).
      * reflexivity.
      * apply (working_plain (rt := Samples.ascii_runtime)
                 Samples.plain_request).
        reflexivity.
    + reflexivity.
  - eexists _, _. split; [reflexivity |].
    etransitivity.
    + apply (process_without_auto_enhance (rt := Samples.ascii_runtime)
               5%Z 6%Z Samples.prose_request Samples.no_history).
      * reflexivity.
      * apply (proj2 (fallback_when_not_json (rt := Samples.ascii_runtime)
                        Samples.prose_request (py "summarize-text")
                        summarize_text eq_refl ltac:(discriminate) eq_refl
                        (or_introl eq_refl))).
    + cbn [PromptRequest.context Samples.prose_request context_due].
      rewrite app_nil_r. reflexivity.
Defined.

End EngineProps.

(** ** The scenarios of the test suite, on ASCII text *)

Module Scenarios.

Import Enhancer EnhancerSpec Templates TemplateSpec Engine History.

(** The five detection tests of the test suite. *)
Example detect_category_tests :
  detect_category (rt := Samples.ascii_runtime)
    (py "write a python function to sort a list") = coding
  /\ detect_category (rt := Samples.ascii_runtime)
       (py "fix this error: TypeError in my code") = debugging
  /\ detect_category (rt := Samples.ascii_runtime)
       (py "write an article about AI trends") = writing
  /\ detect_category (rt := Samples.ascii_runtime)
       (py "explain how neural networks work") = explanation
  /\ detect_category (rt := Samples.ascii_runtime) (py "hello world") = general.
Proof. repeat split; vm_compute; reflexivity. Qed.

(** "explain recursion" with the default tone: category [explanation], the
    five techniques in order, and the teacher persona in front. *)
Example explain_recursion_scenario :
  let '(enhanced, category, techniques) :=
    enhance_prompt (rt := Samples.ascii_runtime) (py "explain recursion")
      professional None None in
  category = explanation
  /\ techniques = map py ["role_framing"; "tone_styling"; "specificity_boost";
                          "structure_guidance"; "quality_guardrails"]%string
  /\ startswith
       (py "You are a patient teacher who explains complex topics clearly.")
       enhanced = true.
Proof. vm_compute. repeat split. Qed.

(** The code-writing template rendered with both variables supplied: the
    values are in the text and no bracketed marker is left. *)
Example render_code_write_scenario :
  exists out,
    render_template (py "code-write") (mapping Samples.go_variables)
    = Return out
    /\ contains (py "Go") out = true
    /\ contains (py "HTTP server") out = true
    /\ contains (py "[") out = false
    /\ contains (py "{") out = false.
Proof. eexists. split; [vm_compute; reflexivity |]. vm_compute. repeat split. Qed.

(** The same template with [language] left out: the marker stands in. *)
Example render_code_write_missing_variable :
  exists out,
    render_template (py "code-write")
      (mapping (<[py "task_description" := py "HTTP server"]> ∅))
    = Return out
    /\ contains (py "[language]") out = true
    /\ contains (py "HTTP server") out = true
    /\ contains (py "{") out = false.
Proof. eexists. split; [vm_compute; reflexivity |]. vm_compute. repeat split. Qed.

(** The engine on a JSON prompt with a template, as in the test suite. *)
Example engine_with_template_scenario :
  exists result self,
    process (rt := Samples.ascii_runtime) 1%Z 2%Z
      (PromptRequest.mk Samples.go_document technical None None true
         (Some (py "code-write")))
      Samples.no_history
    = Return (result, self)
    /\ contains (py "Go") (EnhancedPrompt.enhanced result) = true
    /\ contains (py "HTTP server") (EnhancedPrompt.enhanced result) = true
    /\ EnhancedPrompt.original result = Samples.go_document
    /\ count self = 1%Z.
Proof.
  eexists _, _. split; [vm_compute; reflexivity |]. vm_compute. repeat split.
Qed.

End Scenarios.

(** * More properties *)

Module StripProps.
Import StrProps.

Lemma lstrip_split (s : str) :
  exists ws, s = ws ++ lstrip s /\ forallb isspace ws = true.
Proof.
  induction s as [|c s (ws & Hs & Hws)]; [now exists [] |].
  simpl. destruct (isspace c) eqn:E.
  - exists (c :: ws). split; [simpl; now f_equal | simpl; now rewrite E].
  - now exists [].
Qed.

Lemma rstrip_split (s : str) :
  exists ws, s = rstrip s ++ ws /\ forallb isspace ws = true.
Proof.
  destruct (lstrip_split (rev s)) as (ws & Hs & Hws).
  exists (rev ws). split.
  - unfold rstrip. rewrite <- rev_app_distr, <- Hs. now rewrite rev_involutive.
  - rewrite forallb_forall in *. intros c Hc. apply Hws.
    now apply in_rev in Hc.
Qed.

Lemma lstrip_blank (ws s : str) :
  forallb isspace ws = true -> lstrip (ws ++ s) = lstrip s.
Proof.
  induction ws as [|c ws IH]; [reflexivity |]. simpl.
  intros H. apply andb_true_iff in H as [Hc Hws]. rewrite Hc. now apply IH.
Qed.

Lemma lstrip_idempotent (s : str) : lstrip (lstrip s) = lstrip s.
Proof.
  induction s as [|c s IH]; [reflexivity |]. simpl.
  destruct (isspace c) eqn:E; [exact IH |]. simpl. now rewrite E.
Qed.

Lemma split_from_lstrip (s : str) : split_from [] (lstrip s) = split_from [] s.
Proof.
  induction s as [|c s IH]; [reflexivity |]. simpl.
  destruct (isspace c) eqn:E; [exact IH |]. simpl. now rewrite E.
Qed.

Lemma split_from_blank_tail (cur t ws : str) :
  forallb isspace ws = true -> split_from cur (t ++ ws) = split_from cur t.
Proof.
  intros Hws. revert cur. induction t as [|c t IH]; intros cur.
  - simpl. revert cur. induction ws as [|w ws IHws]; intros cur; [reflexivity |].
    simpl in Hws. apply andb_true_iff in Hws as [Hw Hws].
    simpl. rewrite Hw. rewrite (IHws Hws []).
    destruct cur; reflexivity.
  - simpl. destruct (isspace c); [destruct cur |]; now rewrite ?IH.
Qed.

Lemma split_strip (s : str) : split (strip s) = split s.
Proof.
  unfold split, strip.
  destruct (rstrip_split (lstrip s)) as (ws & Hs & Hws).
  rewrite <- (split_from_lstrip s). rewrite Hs at 2.
  now rewrite split_from_blank_tail.
Qed.

Lemma lstrip_length (s : str) : (length (lstrip s) <= length s)%nat.
Proof.
  induction s as [|c s IH]; simpl; [lia |].
  destruct (isspace c); simpl; lia.
Qed.

(** Stripping the right end keeps a start that is no whitespace. *)
Lemma lstrip_rstrip (u : str) : lstrip u = u -> lstrip (rstrip u) = rstrip u.
Proof.
  intros Hu. destruct (rstrip_split u) as (ws & Hs & Hws).
  destruct (rstrip u) as [|a t] eqn:E; [reflexivity |].
  simpl. destruct (isspace a) eqn:Ea; [| reflexivity].
  exfalso. rewrite Hs in Hu. simpl in Hu. rewrite Ea in Hu.
  pose proof (lstrip_length (t ++ ws)) as Hlen.
  rewrite Hu in Hlen. simpl in Hlen. lia.
Qed.

Lemma strip_idempotent (s : str) : strip (strip s) = strip s.
Proof.
  unfold strip.
  rewrite (lstrip_rstrip (lstrip s) (lstrip_idempotent s)).
  unfold rstrip. rewrite rev_involutive, lstrip_idempotent. reflexivity.
Qed.

End StripProps.

Module EnhancerMore.
Import Enhancer EnhancerSpec TechniqueSpec StrProps StripProps EnhancerProps
  DetectProps.

Section WithRuntime.
Context {rt : PyRuntime}.

(** X16: with a forced category, whitespace around the raw prompt changes
    nothing: the prompt and the stripped prompt give the same enhanced text,
    category and techniques. *)
Theorem surrounding_whitespace_is_ignored (raw : str) (tone : Tone)
    (category : TaskCategory) (ctx : option str) :
  enhance_prompt raw tone (Some category) ctx
  = enhance_prompt (strip raw) tone (Some category) ctx.
Proof.
  rewrite !enhance_prompt_eq. unfold framed, specificity_due, word_count, resolved.
  now rewrite strip_idempotent, split_strip.
Qed.

Lemma general_scores_zero (lower : str) : keyword_hits lower general = 0%nat.
Proof. reflexivity. Qed.

(** X15: a category is detected only on the evidence of a keyword: the result
    is [general] exactly when no keyword of any category occurs in the
    lower-cased text, and any other result has at least one of its own
    keywords in it. *)
Theorem detected_category_has_a_keyword (text : str) :
  (detect_category text = general <->
     forall c, keyword_hits (str_lower text) c = 0%nat)
  /\ (detect_category text <> general ->
        (0 < keyword_hits (str_lower text) (detect_category text))%nat).
Proof.
  unfold detect_category.
  set (scores := keyword_scores (str_lower text)).
  assert (forall c, scores c = Z.of_nat (keyword_hits (str_lower text) c)) as Hs
    by (intros c; apply keyword_scores_hits).
  set (best := max_key scores (hd general all_categories) (tl all_categories)).
  assert (forall c, scores c <= scores best)%Z as Hbest.
  { intros c. pose proof (max_key_ge scores (tl all_categories)
                            (hd general all_categories)) as H.
    rewrite Forall_forall in H. apply H. apply list_elem_of_In.
    apply (all_categories_complete c). }
  destruct ((0 <? scores debugging)%Z && (0 <? scores coding)%Z
            && (scores coding <=? scores debugging)%Z) eqn:E.
  - rewrite !andb_true_iff, !Z.ltb_lt in E. destruct E as [[Hd _] _].
    rewrite Hs in Hd. split.
    + split; [discriminate |]. intros H. specialize (H debugging). lia.
    + intros _. lia.
  - destruct (Z.ltb_spec 0 (scores best)) as [Hpos | Hzero].
    + assert (best <> general) as Hne.
      { intros Heq. rewrite Heq, Hs, general_scores_zero in Hpos. lia. }
      split.
      * split; [intros H; contradiction |].
        intros H. specialize (H best). rewrite Hs in Hpos. lia.
      * intros _. rewrite Hs in Hpos. lia.
    + split; [| intros H; now destruct H].
      split; [| reflexivity]. intros _ c.
      specialize (Hbest c). rewrite Hs in Hbest. lia.
Qed.

(** X18: the techniques list names exactly what was put into the text: the
    enhanced text is the concatenation, in the order of the list returned,
    of the block of each technique listed; each of these blocks holds some
    text, and no technique is listed twice. *)
Theorem enhanced_text_is_the_blocks_of_the_techniques (raw : str)
    (tone : Tone) (category : option TaskCategory) (ctx : option str) :
  let r := enhance_prompt raw tone category ctx in
  fst (fst r) = flat_map (block_of raw (snd (fst r)) tone ctx) (snd r)
  /\ List.Forall (fun tag => block_of raw (snd (fst r)) tone ctx tag <> [])
       (snd r)
  /\ List.NoDup (snd r).
Proof.
  cbv zeta. rewrite enhance_prompt_eq. cbn [fst snd].
  generalize (resolved raw category) as c. intros c.
  assert (block_of raw c tone ctx (py "role_framing")
          = persona c ++ nl ++ nl ++ strip raw) as Hrole
    by (destruct c; reflexivity).
  assert (block_of raw c tone ctx (py "tone_styling")
          = nl ++ nl ++ get_tone_instruction tone) as Htone
    by (destruct tone; reflexivity).
  assert (block_of raw c tone ctx (py "specificity_boost")
          = specificity_text) as Hspec by reflexivity.
  assert (has_structure c = true ->
          block_of raw c tone ctx (py "structure_guidance")
          = structure_text c) as Hstruct
    by (destruct c; intros Hc; try discriminate Hc; reflexivity).
  assert (block_of raw c tone ctx (py "context_injection")
          = context_block (context_of ctx)) as Hctx by reflexivity.
  assert (block_of raw c tone ctx (py "quality_guardrails")
          = guardrails_text) as Hguard by reflexivity.
  assert (forall a b : str, a ++ nl ++ b <> []) as Hne
    by (intros [|x a] b; discriminate).
  assert (has_structure c = true -> structure_text c <> []) as Hhint
    by (destruct c; intros Hc; try discriminate Hc; discriminate).
  unfold technique_tags, framed. rewrite !flat_map_app.
  destruct (specificity_due raw), (has_structure c) eqn:Es,
    (context_due ctx); cbn [flat_map app];
    rewrite ?Hrole, ?Htone, ?Hspec, ?(Hstruct eq_refl), ?Hctx, ?Hguard;
    (split; [rewrite ?app_nil_r, <- ?app_assoc; reflexivity |]).
  all: split.
  all: try (apply NoDup_ListNoDup;
            match goal with
            | |- base.NoDup ?l => apply (bool_decide_unpack (base.NoDup l))
            end; vm_compute; exact I).
  all: repeat (apply List.Forall_cons || apply List.Forall_nil).
  all: rewrite ?Hrole, ?Htone, ?Hspec, ?(Hstruct eq_refl), ?Hctx, ?Hguard.
  all: try apply Hne; try apply (Hne []); try (apply Hhint; reflexivity).
Qed.

End WithRuntime.

End EnhancerMore.

Module RegistryProps.
Import Templates Registry.

Lemma items_are_registrations :
  TEMPLATES_items = map (fun t => (TemplateInfo.id t, t)) registrations.
Proof. vm_compute. reflexivity. Qed.

Lemma registrations_gettable :
  forallb (fun t => bool_decide (get_template (TemplateInfo.id t) = Some t))
    registrations = true.
Proof. vm_compute. reflexivity. Qed.


Lemma registrations_distinct :
  List.NoDup (map TemplateInfo.id registrations).
Proof.
  apply NoDup_ListNoDup.
  apply (bool_decide_unpack (base.NoDup (map TemplateInfo.id registrations))).
  vm_compute. exact I.
Qed.

Lemma register_fold_lookup (l : list TemplateInfo.t)
    (reg : gmap str TemplateInfo.t) (k : str) (t : TemplateInfo.t) :
  fold_left (fun reg t => _register t reg) l reg !! k = Some t ->
  (In t l /\ TemplateInfo.id t = k) \/ reg !! k = Some t.
Proof.
  revert reg. induction l as [|x l IH]; intros reg H; simpl in *.
  - now right.
  - destruct (IH _ H) as [[Hin Hid] | Hreg].
    + left. split; [now right | exact Hid].
    + unfold _register in Hreg.
      destruct (decide (TemplateInfo.id x = k)) as [Heq | Hne].
      * rewrite Heq, lookup_insert_eq in Hreg. injection Hreg as ->.
        left. split; [now left | exact Heq].
      * rewrite lookup_insert_ne in Hreg by assumption. now right.
Qed.

Lemma known_is_registered (k : str) (t : TemplateInfo.t) :
  TEMPLATES !! k = Some t -> In t registrations /\ TemplateInfo.id t = k.
Proof.
  intros H.
  destruct (register_fold_lookup registrations ∅ k t H) as [H' | H'];
    [exact H' |].
  rewrite lookup_empty in H'. discriminate.
Qed.

(** X8: the listing and the lookup agree.  [list_templates()] gives the
    twelve registered templates in registration order, each id once; a
    template is listed exactly when [get_template] returns it for its id;
    and [list_templates(category)] is that listing cut down, order kept, to
    the templates of the category. *)
Theorem list_templates_agrees_with_get_template :
  list_templates None = registrations
  /\ List.NoDup (map TemplateInfo.id (list_templates None))
  /\ (forall t, In t (list_templates None) <->
                get_template (TemplateInfo.id t) = Some t)
  /\ (forall template_id t, get_template template_id = Some t ->
        TemplateInfo.id t = template_id /\ In t (list_templates None))
  /\ (forall c,
        list_templates (Some c)
        = List.filter (fun t => bool_decide (TemplateInfo.category t = c))
            (list_templates None))
  /\ (forall c t, In t (list_templates (Some c)) <->
                  In t (list_templates None) /\ TemplateInfo.category t = c).
Proof.
  assert (list_templates None = registrations) as Hlist.
  { unfold list_templates. rewrite items_are_registrations, map_map.
    apply map_id. }
  split; [exact Hlist |]. rewrite Hlist.
  split; [exact registrations_distinct |]. split; [| split; [| split]].
  - intros t. split.
    + intros Hin. pose proof registrations_gettable as H.
      rewrite forallb_forall in H. specialize (H t Hin).
      now apply bool_decide_eq_true_1 in H.
    + intros H. now apply (known_is_registered _ _ H).
  - intros k t H. destruct (known_is_registered k t H). auto.
  - intros c. unfold list_templates.
    now rewrite items_are_registrations, map_map, map_id.
  - intros c t. unfold list_templates.
    rewrite items_are_registrations, map_map, map_id, filter_In.
    now rewrite bool_decide_eq_true.
Qed.

End RegistryProps.

Module BlueprintProps.
Import Templates TemplateSpec Registry BlueprintSpec StrProps TemplateProps
  RegistryProps.

Lemma registrations_well_formed : forallb well_formed registrations = true.
Proof. vm_compute. reflexivity. Qed.

Lemma known_well_formed (k : str) (t : TemplateInfo.t) :
  TEMPLATES !! k = Some t -> well_formed t = true.
Proof.
  intros H. destruct (known_is_registered k t H) as [Hin _].
  pose proof registrations_well_formed as Hall.
  rewrite forallb_forall in Hall. apply Hall. exact Hin.
Qed.


Lemma placeholder_cons (v : str) : token v = lbrace :: v ++ [rbrace].
Proof. reflexivity. Qed.

Lemma has_char_false (c : char) (s : str) :
  has_char c s = false <-> ~ In c s.
Proof.
  unfold has_char. split.
  - intros H Hin. apply not_true_iff_false in H. apply H.
    apply existsb_exists. exists c. split; [exact Hin | apply N.eqb_refl].
  - intros H. apply not_true_iff_false. intros Hex.
    apply existsb_exists in Hex as (x & Hin & Heq).
    apply N.eqb_eq in Heq. subst x. contradiction.
Qed.

Lemma has_char_app (c : char) (s t : str) :
  has_char c (s ++ t) = has_char c s || has_char c t.
Proof. unfold has_char. apply existsb_app. Qed.

(** Text without an opening brace passes through a scan for a placeholder. *)
Lemma scan_plain (v new s rest : str) :
  has_char lbrace s = false ->
  replace_scan (token v) new 0 (s ++ rest)
  = s ++ replace_scan (token v) new 0 rest.
Proof.
  induction s as [|c s IH]; intros H; [reflexivity |].
  unfold has_char in H. cbn [existsb] in H.
  apply orb_false_iff in H as [Hc Hs].
  simpl app. rewrite replace_scan_miss.
  - now rewrite IH.
  - rewrite placeholder_cons. cbn [startswith]. now rewrite Hc.
Qed.

Lemma closing_prefix (v w rest : str) :
  has_char rbrace v = false -> has_char rbrace w = false ->
  startswith (v ++ [rbrace]) (w ++ rbrace :: rest) = true -> v = w.
Proof.
  unfold has_char.
  revert w. induction v as [|a v IH]; intros w Hv Hw H.
  - destruct w as [|b w]; [reflexivity |].
    cbn [existsb app startswith] in *.
    apply orb_false_iff in Hw as [Hb _].
    apply andb_true_iff in H as [H _]. congruence.
  - destruct w as [|b w]; cbn [existsb app startswith] in *.
    + apply orb_false_iff in Hv as [Ha _].
      apply andb_true_iff in H as [H _]. rewrite N.eqb_sym in H. congruence.
    + apply orb_false_iff in Hv as [_ Hv]. apply orb_false_iff in Hw as [_ Hw].
      apply andb_true_iff in H as [Hab H]. apply N.eqb_eq in Hab. subst b.
      f_equal. now apply IH.
Qed.

(** One pass on a placeholder of another variable leaves it alone. *)
Lemma scan_other_hole (v w new rest : str) :
  has_char rbrace v = false ->
  has_char lbrace w = false -> has_char rbrace w = false ->
  v <> w ->
  replace_scan (token v) new 0 (token w ++ rest)
  = token w ++ replace_scan (token v) new 0 rest.
Proof.
  intros Hv Hwl Hwr Hne.
  rewrite (placeholder_cons w). simpl app. rewrite replace_scan_miss.
  - f_equal. rewrite <- app_assoc.
    rewrite (scan_plain v new w ([rbrace] ++ rest) Hwl).
    rewrite (scan_plain v new [rbrace] rest eq_refl).
    now rewrite <- app_assoc.
  - destruct (startswith (token v) (lbrace :: (w ++ [rbrace]) ++ rest))
      eqn:E; [| reflexivity].
    exfalso. apply Hne. rewrite placeholder_cons in E.
    cbn [startswith] in E. apply andb_true_iff in E as [_ E].
    rewrite <- app_assoc in E.
    now apply (closing_prefix v w rest).
Qed.

Lemma pass_on_chunks (v val : str) (cs : list chunk) :
  has_char rbrace v = false ->
  forallb tidy_chunk cs = true ->
  replace (token v) val (flatten cs)
  = flatten (map (fill_one v val) cs).
Proof.
  intros Hv Hcs.
  assert (replace (token v) val (flatten cs)
          = replace_scan (token v) val 0 (flatten cs)) as ->
    by reflexivity.
  induction cs as [|c cs IH]; [reflexivity |].
  cbn [forallb] in Hcs. apply andb_true_iff in Hcs as [Hc Hcs].
  unfold flatten in *. cbn [flat_map map].
  destruct c as [s | w]; cbn [chunk_text fill_one tidy_chunk] in *.
  - apply negb_true_iff in Hc. rewrite scan_plain by assumption.
    now rewrite IH.
  - apply andb_true_iff in Hc as [Hwl Hwr].
    apply negb_true_iff in Hwl, Hwr.
    destruct (decide (w = v)) as [-> | Hne]; cbn [chunk_text].
    + rewrite replace_scan_hit by apply token_nonempty.
      now rewrite IH.
    + rewrite scan_other_hole by (try assumption; congruence).
      now rewrite IH.
Qed.


Lemma mem_In (v : str) (l : list str) : mem v l = true <-> In v l.
Proof.
  unfold mem. rewrite existsb_exists. split.
  - intros (w & Hin & Hw). apply bool_decide_eq_true_1 in Hw. now subst.
  - intros H. exists v. split; [exact H | now apply bool_decide_eq_true_2].
Qed.

Lemma fill_step (vars : gmap str str) (v : str) (declared : list str)
    (c : chunk) :
  fill vars declared (fill_one v (value_for vars v) c)
  = fill vars (v :: declared) c.
Proof.
  destruct c as [s | w]; [reflexivity |].
  unfold fill_one, fill, mem. cbn [existsb].
  destruct (decide (w = v)) as [-> | Hne].
  - now rewrite bool_decide_eq_true_2.
  - rewrite bool_decide_eq_false_2 by congruence. reflexivity.
Qed.

Lemma fill_one_tidy (v val : str) (cs : list chunk) :
  has_char lbrace val = false ->
  forallb tidy_chunk cs = true ->
  forallb tidy_chunk (map (fill_one v val) cs) = true.
Proof.
  intros Hval. induction cs as [|c cs IH]; [reflexivity |].
  cbn [forallb map]. rewrite !andb_true_iff. intros [Hc Hcs].
  split; [| now apply IH].
  destruct c as [s | w]; [exact Hc |]. unfold fill_one.
  destruct (decide (w = v)); [| exact Hc].
  cbn [tidy_chunk]. now rewrite Hval.
Qed.

(** All passes of the loop, read on the chunks. *)
Lemma passes_on_chunks (vars : gmap str str) (declared : list str)
    (cs : list chunk) :
  (forall v, In v declared ->
     has_char rbrace v = false
     /\ has_char lbrace (value_for vars v) = false) ->
  forallb tidy_chunk cs = true ->
  fold_left (substitute vars) declared (flatten cs)
  = flatten (map (fill vars declared) cs).
Proof.
  revert cs. induction declared as [|v declared IH]; intros cs Hd Hcs.
  - cbn [fold_left]. f_equal. symmetry.
    erewrite map_ext; [apply map_id |]. now intros [s | w].
  - cbn [fold_left]. unfold substitute at 2.
    destruct (Hd v ltac:(now left)) as [Hv Hval].
    rewrite pass_on_chunks by assumption.
    rewrite IH.
    + f_equal. rewrite map_map. apply map_ext. intros c. apply fill_step.
    + intros w Hw. apply Hd. now right.
    + now apply fill_one_tidy.
Qed.

Lemma fill_all (vars : gmap str str) (declared : list str) (cs : list chunk) :
  forallb (fun v => mem v declared) (holes cs) = true ->
  flatten (map (fill vars declared) cs) = instantiate vars cs.
Proof.
  unfold flatten, instantiate, holes.
  induction cs as [|c cs IH]; [reflexivity |].
  cbn [flat_map map]. destruct c as [s | w]; cbn [app forallb fill chunk_text].
  - intros H. now rewrite IH.
  - rewrite andb_true_iff. intros [Hw H]. rewrite Hw. cbn [chunk_text].
    now rewrite IH.
Qed.

Lemma marker_brace_free (v : str) :
  has_char lbrace v = false -> has_char lbrace (bracketed v) = false.
Proof.
  intros H. change (bracketed v) with ([91%N] ++ v ++ [93%N]).
  rewrite !has_char_app, H. reflexivity.
Qed.

Lemma instantiate_brace_free (vars : gmap str str) (cs : list chunk) :
  forallb tidy_chunk cs = true ->
  (forall v, In v (holes cs) -> has_char lbrace (value_for vars v) = false) ->
  has_char lbrace (instantiate vars cs) = false.
Proof.
  unfold instantiate, holes.
  induction cs as [|c cs IH]; [reflexivity |].
  cbn [flat_map forallb]. rewrite andb_true_iff. intros [Hc Hcs] Hv.
  rewrite has_char_app. apply orb_false_iff. split.
  - destruct c as [s | w]; cbn [tidy_chunk] in Hc.
    + now apply negb_true_iff in Hc.
    + apply Hv. apply in_or_app. left. now left.
  - apply IH; [exact Hcs |]. intros v Hin. apply Hv. apply in_or_app. now right.
Qed.

Lemma instantiate_contains (vars : gmap str str) (cs : list chunk) (v : str) :
  In v (holes cs) -> contains (value_for vars v) (instantiate vars cs) = true.
Proof.
  intros Hin. apply contains_iff. unfold instantiate, holes in *.
  induction cs as [|c cs IH]; [contradiction |].
  cbn [flat_map] in *. apply in_app_or in Hin as [Hin | Hin].
  - destruct c as [s | w]; [contradiction |].
    destruct Hin as [-> | []]. eexists [], _. reflexivity.
  - destruct (IH Hin) as (pre & post & ->).
    eexists (_ ++ pre), post. now rewrite <- app_assoc.
Qed.

(** What [well_formed] gives, in one place. *)
Lemma well_formed_inv (t : TemplateInfo.t) :
  well_formed t = true ->
  exists cs,
    flatten cs = TemplateInfo.template t
    /\ forallb tidy_chunk cs = true
    /\ forallb (fun v => mem v (TemplateInfo.variables t)) (holes cs) = true
    /\ (forall v, In v (TemplateInfo.variables t) ->
          In v (holes cs)
          /\ has_char lbrace v = false /\ has_char rbrace v = false)
    /\ TemplateInfo.variables t <> [].
Proof.
  unfold well_formed.
  destruct (chunks_of (TemplateInfo.template t)) as [cs|]; [| discriminate].
  rewrite !andb_true_iff. intros [[[[H1 H2] H3] H4] H5].
  exists cs. split; [now apply bool_decide_eq_true_1 in H1 |].
  split; [exact H2 |]. split; [exact H3 |]. split.
  - intros v Hv. rewrite forallb_forall in H4. specialize (H4 v Hv).
    rewrite !andb_true_iff, !negb_true_iff in H4.
    destruct H4 as [[Hm Hl] Hr]. apply mem_In in Hm. auto.
  - apply negb_true_iff in H5. now apply bool_decide_eq_false_1 in H5.
Qed.

Lemma render_at_once (template_id : str) (tmpl : TemplateInfo.t)
    (vars : gmap str str) (cs : list chunk) :
  TEMPLATES !! template_id = Some tmpl ->
  flatten cs = TemplateInfo.template tmpl ->
  forallb tidy_chunk cs = true ->
  forallb (fun v => mem v (TemplateInfo.variables tmpl)) (holes cs) = true ->
  (forall v, In v (TemplateInfo.variables tmpl) ->
     has_char rbrace v = false
     /\ has_char lbrace (value_for vars v) = false) ->
  render_template template_id (mapping vars) = Return (instantiate vars cs).
Proof.
  intros Hknown Hflat Htidy Hholes Hd.
  rewrite (render_known _ _ _ Hknown), <- Hflat.
  rewrite passes_on_chunks; [now rewrite fill_all | exact Hd | exact Htidy].
Qed.

(** X6: for a registered template and a mapping whose values for the
    declared variables hold no opening brace, the rendered text is the
    blueprint with all its placeholders replaced at once, each by the value
    supplied for its variable or by the bracketed marker: the placeholders
    are those of the declared variables, each value or marker shows in the
    text, and no opening brace, hence no placeholder, is left. *)
Theorem render_replaces_all_placeholders_at_once
    (template_id : str) (tmpl : TemplateInfo.t) (vars : gmap str str) :
  TEMPLATES !! template_id = Some tmpl ->
  (forall v val, In v (TemplateInfo.variables tmpl) ->
                 vars !! v = Some val -> ~ In lbrace val) ->
  exists cs,
    flatten cs = TemplateInfo.template tmpl
    /\ (forall v, In v (holes cs) <-> In v (TemplateInfo.variables tmpl))
    /\ render_template template_id (mapping vars)
       = Return (instantiate vars cs)
    /\ (forall v, In v (TemplateInfo.variables tmpl) ->
          contains (value_for vars v) (instantiate vars cs) = true)
    /\ ~ In lbrace (instantiate vars cs).
Proof.
  intros Hknown Hvals.
  destruct (well_formed_inv tmpl (known_well_formed _ _ Hknown))
    as (cs & Hflat & Htidy & Hholes & Hdecl & _).
  assert (forall v, In v (TemplateInfo.variables tmpl) ->
            has_char lbrace (value_for vars v) = false) as Hfree.
  { intros v Hv. unfold value_for.
    destruct (vars !! v) as [val|] eqn:E.
    - apply has_char_false. now apply (Hvals v val).
    - apply marker_brace_free. now apply Hdecl. }
  exists cs. split; [exact Hflat |]. split; [| split; [| split]].
  - intros v. split; [| now apply Hdecl].
    intros Hin. rewrite forallb_forall in Hholes. now apply mem_In, Hholes.
  - apply (render_at_once template_id tmpl vars cs Hknown Hflat Htidy Hholes).
    intros v Hv. split; [now apply Hdecl | now apply Hfree].
  - intros v Hv. apply instantiate_contains. now apply Hdecl.
  - apply has_char_false. apply instantiate_brace_free; [exact Htidy |].
    intros v Hv. apply Hfree. rewrite forallb_forall in Hholes.
    now apply mem_In, Hholes.
Qed.

Lemma render_replaces_all_placeholders_at_once_witness :
  exists cs,
    flatten cs = TemplateInfo.template code_write
    /\ (forall v, In v (holes cs) <-> In v (TemplateInfo.variables code_write))
    /\ render_template (py "code-write") (mapping MoreSamples.language_only)
       = Return (instantiate MoreSamples.language_only cs)
    /\ (forall v, In v (TemplateInfo.variables code_write) ->
          contains (value_for MoreSamples.language_only v)
            (instantiate MoreSamples.language_only cs) = true)
    /\ ~ In lbrace (instantiate MoreSamples.language_only cs).
Proof.
  apply (render_replaces_all_placeholders_at_once (py "code-write") code_write
           MoreSamples.language_only eq_refl).
  intros v val [<- | [<- | []]] H; vm_compute in H; try discriminate H.
  injection H as <-. vm_compute. intuition discriminate.
Defined.

Lemma render_vars_dict (d : gmap str pyobj) (declared : list str) (text : str) :
  if forallb (text_or_missing d) declared
  then exists out, render_vars (PyDict d) declared text = Return out
  else render_vars (PyDict d) declared text = Raise TypeError.
Proof.
  revert text. induction declared as [|v declared IH]; intros text.
  - cbn. now exists text.
  - cbn [forallb render_vars py_get]. unfold text_or_missing at 1.
    destruct (d !! v) as [[| | | |s| |]|]; cbn; try reflexivity; apply IH.
Qed.

Lemma render_vars_agree (d d' : gmap str pyobj) (declared : list str)
    (text : str) :
  (forall v, In v declared -> d' !! v = d !! v) ->
  render_vars (PyDict d') declared text = render_vars (PyDict d) declared text.
Proof.
  revert text. induction declared as [|v declared IH]; intros text H;
    [reflexivity |].
  cbn [render_vars py_get]. rewrite (H v) by now left.
  cbn [mbind except_bind].
  destruct (py_replace _ _ _) as [text' | e]; [| reflexivity].
  apply IH. intros w Hw. apply H. now right.
Qed.

Lemma known_declares (template_id : str) (tmpl : TemplateInfo.t) :
  TEMPLATES !! template_id = Some tmpl ->
  template_id <> [] /\ TemplateInfo.variables tmpl <> [].
Proof.
  intros Hknown. split.
  - intros ->. discriminate Hknown.
  - now destruct (well_formed_inv tmpl (known_well_formed _ _ Hknown))
      as (cs & _ & _ & _ & _ & Hne).
Qed.

Lemma render_not_dict (template_id : str) (tmpl : TemplateInfo.t)
    (variables : pyobj) :
  TEMPLATES !! template_id = Some tmpl ->
  (forall d, variables <> PyDict d) ->
  render_template template_id variables = Raise AttributeError.
Proof.
  intros Hknown Hnd. destruct (known_declares _ _ Hknown) as [_ Hne].
  unfold render_template. rewrite Hknown.
  destruct (TemplateInfo.variables tmpl) as [|v declared];
    [contradiction |].
  destruct variables; try reflexivity. now destruct (Hnd d).
Qed.

Lemma render_dict (template_id : str) (tmpl : TemplateInfo.t)
    (d : gmap str pyobj) :
  TEMPLATES !! template_id = Some tmpl ->
  if forallb (text_or_missing d) (TemplateInfo.variables tmpl)
  then exists out, render_template template_id (PyDict d) = Return out
  else render_template template_id (PyDict d) = Raise TypeError.
Proof.
  intros Hknown. unfold render_template. rewrite Hknown.
  apply render_vars_dict.
Qed.

(** X7: how [render_template] answers on any object, for a registered
    template.  An object that is no dictionary raises [AttributeError].  A
    dictionary raises [TypeError] when it gives some declared variable a
    value that is not a text, and otherwise a text is returned; the answer
    depends only on what the dictionary holds under the declared variables,
    other keys are never looked at. *)
Theorem render_template_outcome_by_variables
    (template_id : str) (tmpl : TemplateInfo.t) (variables : pyobj) :
  TEMPLATES !! template_id = Some tmpl ->
  match variables with
  | PyDict d =>
      (if forallb (text_or_missing d) (TemplateInfo.variables tmpl)
       then exists out, render_template template_id variables = Return out
       else render_template template_id variables = Raise TypeError)
      /\ (forall d',
            (forall v, In v (TemplateInfo.variables tmpl) ->
                       d' !! v = d !! v) ->
            render_template template_id (PyDict d')
            = render_template template_id variables)
  | _ => render_template template_id variables = Raise AttributeError
  end.
Proof.
  intros Hknown.
  destruct variables;
    try (apply (render_not_dict _ _ _ Hknown); discriminate).
  split; [exact (render_dict template_id tmpl d Hknown) |].
  intros d' H. unfold render_template. rewrite Hknown.
  now apply render_vars_agree.
Qed.

Lemma render_template_outcome_by_variables_witness :
  render_template (py "code-write") (PyDict MoreSamples.mixed_dict)
  = Raise TypeError
  /\ (forall d',
        (forall v, In v (TemplateInfo.variables code_write) ->
                   d' !! v = MoreSamples.mixed_dict !! v) ->
        render_template (py "code-write") (PyDict d')
        = render_template (py "code-write") (PyDict MoreSamples.mixed_dict)).
Proof.
  exact (render_template_outcome_by_variables (py "code-write") code_write
           (PyDict MoreSamples.mixed_dict) eq_refl).
Defined.

End BlueprintProps.

Module HistoryMore.
Import History HistorySpec HistoryProps HistoryMoreSpec.

Lemma filter_length_le {A} (f : A -> bool) (l : list A) :
  (length (List.filter f l) <= length l)%nat.
Proof.
  induction l as [|x l IH]; simpl; [lia |]. destruct (f x); simpl; lia.
Qed.

Lemma filter_same_length {A} (f : A -> bool) (l : list A) :
  length (List.filter f l) = length l -> List.filter f l = l.
Proof.
  induction l as [|x l IH]; simpl; [reflexivity |].
  pose proof (filter_length_le f l) as Hle.
  destruct (f x); simpl; intros H; [f_equal; apply IH; lia | lia].
Qed.

Lemma filter_split_length {A} (f : A -> bool) (l : list A) :
  (length (List.filter f l) + length (List.filter (fun x => negb (f x)) l)
   = length l)%nat.
Proof.
  induction l as [|x l IH]; simpl; [reflexivity |].
  destruct (f x); simpl; lia.
Qed.

Lemma delete_entries (entry_id : Z) (self : HistoryManager) :
  _entries (snd (delete entry_id self))
  = List.filter (fun e => negb (HistoryEntry.id e =? entry_id)%Z)
      (_entries self).
Proof. unfold delete. now destruct (_ <? _)%nat. Qed.

Lemma delete_hit_iff (entry_id : Z) (self : HistoryManager) :
  fst (delete entry_id self) = true <-> In entry_id (ids self).
Proof.
  unfold delete, ids. cbn [_entries].
  set (keep := fun e => negb (HistoryEntry.id e =? entry_id)%Z).
  pose proof (filter_length_le keep (_entries self)) as Hle.
  destruct (Nat.ltb_spec (length (List.filter keep (_entries self)))
              (length (_entries self))) as [Hlt | Hge]; cbn [fst].
  - split; [intros _ | reflexivity].
    destruct (in_dec Z.eq_dec entry_id (map HistoryEntry.id (_entries self)))
      as [Hin | Hnot]; [exact Hin |].
    exfalso. assert (List.filter keep (_entries self) = _entries self) as Heq.
    { clear -Hnot. induction (_entries self) as [|x l IH]; [reflexivity |].
      simpl in *. unfold keep at 1.
      destruct (Z.eqb_spec (HistoryEntry.id x) entry_id); simpl.
      - exfalso. apply Hnot. now left.
      - f_equal. apply IH. tauto. }
    rewrite Heq in Hlt. lia.
  - split; [discriminate |]. intros Hin. exfalso.
    assert (List.filter keep (_entries self) = _entries self) as Heq
      by (apply filter_same_length; lia).
    apply in_map_iff in Hin as (e & Hid & He).
    rewrite <- Heq in He. apply filter_In in He as [_ Hk].
    unfold keep in Hk. rewrite Hid, Z.eqb_refl in Hk. discriminate.
Qed.

Lemma delete_miss_unchanged (entry_id : Z) (self : HistoryManager) :
  fst (delete entry_id self) = false -> snd (delete entry_id self) = self.
Proof.
  intros Hf. unfold delete in *.
  destruct (Nat.ltb_spec
              (length (_entries
                 (mkHistoryManager
                    (List.filter
                       (fun e => negb (HistoryEntry.id e =? entry_id)%Z)
                       (_entries self)) (_path self))))
              (length (_entries self))) as [Hlt | Hge];
    cbn [fst snd _entries] in *; [discriminate |].
  pose proof (filter_length_le
                (fun e => negb (HistoryEntry.id e =? entry_id)%Z)
                (_entries self)) as Hle.
  rewrite filter_same_length by lia. now destruct self.
Qed.

(** X9: [delete] answers [True] exactly when some entry carries the id; it
    removes every entry with that id and keeps the others in their order, so
    the count drops by the number of entries removed and the id is gone; a
    miss leaves the manager as it was, file included, and so does a second
    delete of the same id. *)
Theorem delete_removes_the_entries_with_the_id (entry_id : Z)
    (self : HistoryManager) :
  let r := delete entry_id self in
  (fst r = true <-> In entry_id (ids self))
  /\ _entries (snd r)
     = List.filter (fun e => negb (HistoryEntry.id e =? entry_id)%Z)
         (_entries self)
  /\ ~ In entry_id (ids (snd r))
  /\ count (snd r)
     = (count self - Z.of_nat (length (carrying entry_id self)))%Z
  /\ (fst r = false -> snd r = self)
  /\ delete entry_id (snd r) = (false, snd r).
Proof.
  cbv zeta.
  assert (~ In entry_id (ids (snd (delete entry_id self)))) as Hgone.
  { unfold ids. rewrite delete_entries. intros Hin.
    apply in_map_iff in Hin as (e & Hid & He).
    apply filter_In in He as [_ Hk].
    rewrite Hid, Z.eqb_refl in Hk. discriminate. }
  split; [apply delete_hit_iff |]. split; [apply delete_entries |].
  split; [exact Hgone |]. split; [| split; [apply delete_miss_unchanged |]].
  - unfold count, carrying. rewrite delete_entries.
    pose proof (filter_split_length
                  (fun e => (HistoryEntry.id e =? entry_id)%Z)
                  (_entries self)). lia.
  - assert (fst (delete entry_id (snd (delete entry_id self))) = false) as Hf.
    { apply not_true_iff_false. intros Ht.
      apply delete_hit_iff in Ht. contradiction. }
    rewrite (surjective_pairing (delete entry_id (snd (delete entry_id self)))).
    f_equal; [exact Hf | now apply delete_miss_unchanged].
Qed.

(** Where no file exists the constructor returns the store without entries. *)
Lemma opened_without_file : new NoFile = Return Samples.no_history.
Proof. reflexivity. Qed.

Lemma save_in_sync (self : HistoryManager) : in_sync (_save self).
Proof. exists (_save self). split; reflexivity. Qed.

Lemma step_in_sync (o : op) (self : HistoryManager) :
  in_sync self -> in_sync (step o self).
Proof.
  intros H. destruct o; unfold step.
  - apply save_in_sync.
  - unfold star. destruct (star_first entry_id (_entries self)) as [[e es]|];
      [apply save_in_sync | exact H].
  - destruct (fst (delete entry_id self)) eqn:E.
    + unfold delete in *. destruct (_ <? _)%nat;
        [apply save_in_sync | discriminate].
    + now rewrite (delete_miss_unchanged _ _ E).
  - apply save_in_sync.
Qed.

Lemma run_in_sync (ops : list op) (self : HistoryManager) :
  in_sync self -> in_sync (run ops self).
Proof.
  revert self. induction ops as [|o ops IH]; intros self H; [exact H |].
  simpl. apply IH. now apply step_in_sync.
Qed.

(** X10: opening and reopening the store.  [HistoryManager(path)] raises
    exactly when reading the file raises an error that is neither
    [JSONDecodeError] nor a [ValueError], such as the [TypeError] of a file
    holding JSON that is not a list of objects.  When it returns, then
    whatever operations follow, a manager opened afterwards on the same file
    is returned too and starts with the entries the first one holds. *)
Theorem reopened_store_has_the_same_entries (path : file) (ops : list op) :
  match new path with
  | Return self =>
      exists reopened,
        new (_path (run ops self)) = Return reopened
        /\ _entries reopened = _entries (run ops self)
  | Raise e =>
      path = Unreadable e
      /\ e <> JSONDecodeError /\ (forall msg, e <> ValueError msg)
  end
  /\ (forall e, e <> JSONDecodeError -> (forall msg, e <> ValueError msg) ->
        new (Unreadable e) = Raise e).
Proof.
  split.
  - destruct (new path) as [self | e] eqn:E.
    + apply (run_in_sync ops self).
      destruct path as [| e | data]; [| destruct e |];
        try discriminate E; injection E as <-;
        eexists; split; reflexivity.
    + destruct path as [| e' | data]; [discriminate | | discriminate].
      destruct e'; try discriminate E; injection E as <-;
        repeat split; discriminate.
  - intros e Hj Hv. destruct e; try reflexivity.
    + contradiction.
    + now destruct (Hv msg).
Qed.

Lemma slice_to_cons {A} (limit : Z) (x : A) (l : list A) :
  (0 < limit)%Z -> slice_to limit (x :: l) = x :: slice_to (limit - 1) l.
Proof.
  intros H. unfold slice_to.
  destruct (Z.ltb_spec limit 0); [lia |].
  destruct (Z.ltb_spec (limit - 1) 0); [lia |].
  replace (Z.to_nat limit) with (S (Z.to_nat (limit - 1))) by lia.
  reflexivity.
Qed.

(** X11: the entry just added is the first one listed: with a positive limit
    and without the starred filter, listing all categories or the category
    of the new entry puts it in front of what was listed before for one
    entry less; with the starred filter the listing is what it was. *)
Theorem added_entry_is_listed_first (now : datetime) (original enhanced : str)
    (category : TaskCategory) (tone : Tone) (self : HistoryManager)
    (limit : Z) :
  let r := add now original enhanced category tone self in
  ((0 < limit)%Z ->
     list_ None limit false (snd r)
     = fst r :: list_ None (limit - 1) false self
     /\ list_ (Some category) limit false (snd r)
        = fst r :: list_ (Some category) (limit - 1) false self)
  /\ (forall c, list_ c limit true (snd r) = list_ c limit true self)
  /\ (forall c, c <> category ->
        list_ (Some c) limit false (snd r) = list_ (Some c) limit false self).
Proof.
  cbv zeta. unfold list_, add. cbn [fst snd _save _entries].
  rewrite rev_app_distr. cbn [rev app].
  split; [| split].
  - intros H. split.
    + now apply slice_to_cons.
    + cbn [List.filter HistoryEntry.category].
      rewrite bool_decide_eq_true_2 by reflexivity.
      now apply slice_to_cons.
  - intros [c|]; cbn [List.filter HistoryEntry.category HistoryEntry.starred].
    + destruct (bool_decide (category = c)); reflexivity.
    + reflexivity.
  - intros c Hc. cbn [List.filter HistoryEntry.category].
    rewrite bool_decide_eq_false_2 by congruence. reflexivity.
Qed.

Lemma filter_keep_all {A} (f : A -> bool) (l : list A) :
  List.Forall (fun x => f x = true) l -> List.filter f l = l.
Proof.
  induction 1 as [|x l Hx _ IH]; simpl; [reflexivity |].
  now rewrite Hx, IH.
Qed.

(** X17: adding an entry and deleting it again leaves the entries as they
    were, and the next entry added gets the id of the deleted one: the id of
    a deleted newest entry is handed out again. *)
Theorem id_of_a_deleted_newest_entry_is_reused
    (now now' : datetime) (original enhanced original' enhanced' : str)
    (category category' : TaskCategory) (tone tone' : Tone)
    (self : HistoryManager) :
  let r := add now original enhanced category tone self in
  let d := delete (HistoryEntry.id (fst r)) (snd r) in
  fst d = true
  /\ _entries (snd d) = _entries self
  /\ HistoryEntry.id
       (fst (add now' original' enhanced' category' tone' (snd d)))
     = HistoryEntry.id (fst r).
Proof.
  cbv zeta.
  assert (_entries (snd (delete
            (HistoryEntry.id (fst (add now original enhanced category tone self)))
            (snd (add now original enhanced category tone self))))
          = _entries self) as Hentries.
  { rewrite delete_entries. unfold add. cbn [fst snd _save _entries HistoryEntry.id].
    rewrite List.filter_app. cbn [List.filter HistoryEntry.id].
    rewrite Z.eqb_refl. cbn [negb]. rewrite app_nil_r.
    apply filter_keep_all.
    pose proof (max_id_bounds self) as Hb. unfold ids in Hb.
    rewrite List.Forall_forall. intros e He.
    rewrite Forall_forall in Hb.
    assert (HistoryEntry.id e < max_id (_entries self) + 1)%Z as Hlt.
    { apply Hb. apply list_elem_of_In. apply in_map_iff. now exists e. }
    apply negb_true_iff. apply Z.eqb_neq. lia. }
  split; [| split; [exact Hentries |]].
  - apply delete_hit_iff. rewrite ids_add. apply in_or_app. right. now left.
  - unfold add at 1. cbn [fst HistoryEntry.id]. now rewrite Hentries.
Qed.

End HistoryMore.

Module EngineMore.
Import Engine Templates TemplateSpec TemplateProps EnhancerSpec EngineSpec
  History EngineProps BlueprintSpec BlueprintProps.

Section WithRuntime.
Context {rt : PyRuntime}.

Lemma process_on_base (now_result now_entry : datetime)
    (request : PromptRequest.t) (self : HistoryManager) (text : str) :
  base_prompt_of request = Return text ->
  process now_result now_entry request self
  = Return
      (outcome now_result request text,
       snd (add now_entry (PromptRequest.raw_prompt request)
              (EnhancedPrompt.enhanced (outcome now_result request text))
              (EnhancedPrompt.category (outcome now_result request text))
              (PromptRequest.tone request) self)).
Proof.
  intros Hbase. unfold process, outcome. rewrite Hbase.
  unfold context_due, context_of, context_block.
  destruct (PromptRequest.auto_enhance request).
  - cbn [mbind except_bind].
    destruct (Enhancer.enhance_prompt text (PromptRequest.tone request)
                (PromptRequest.category request)
                (PromptRequest.context request)) as [[e c] t].
    reflexivity.
  - destruct (PromptRequest.context request) as [ctx|]; simpl;
      [destruct (truthy ctx) |]; simpl; rewrite ?app_nil_r; reflexivity.
Qed.

Lemma process_raise_iff (now_result now_entry : datetime)
    (request : PromptRequest.t) (self : HistoryManager) (e : exn) :
  process now_result now_entry request self = Raise e
  <-> base_prompt_of request = Raise e.
Proof.
  destruct (base_prompt_of request) as [text | e'] eqn:E.
  - rewrite (process_on_base _ _ _ _ _ E). split; discriminate.
  - unfold process. rewrite E. cbn [mbind except_bind].
    split; intros [= ->]; reflexivity.
Qed.

Lemma outcome_fields (now_result : datetime) (request : PromptRequest.t)
    (text : str) :
  EnhancedPrompt.original (outcome now_result request text)
  = PromptRequest.raw_prompt request
  /\ EnhancedPrompt.tone (outcome now_result request text)
     = PromptRequest.tone request
  /\ EnhancedPrompt.timestamp (outcome now_result request text) = now_result.
Proof.
  unfold outcome.
  destruct (PromptRequest.auto_enhance request);
    [destruct (Enhancer.enhance_prompt _ _ _ _) as [[e c] t] |];
    repeat split.
Qed.

(** X12: [process] raises only out of its template step.  Without a template
    it always returns.  With one it raises [e] exactly when [json.loads]
    raises [e] and [e] is neither [JSONDecodeError] nor [TypeError], or when
    [render_template] raises [e] on the variables read. *)
Theorem process_raises_only_from_the_template_step
    (now_result now_entry : datetime) (request : PromptRequest.t)
    (self : HistoryManager) :
  (is_set (PromptRequest.template_id request) = false ->
     exists result self',
       process now_result now_entry request self = Return (result, self'))
  /\ (forall e,
        process now_result now_entry request self = Raise e <->
        exists template_id,
          PromptRequest.template_id request = Some template_id
          /\ template_id <> []
          /\ ((json_loads (PromptRequest.raw_prompt request) = Raise e
               /\ e <> JSONDecodeError /\ e <> TypeError)
              \/ exists variables,
                   load_variables (PromptRequest.raw_prompt request)
                   = Return variables
                   /\ render_template template_id variables = Raise e)).
Proof.
  split.
  - intros Hunset. eexists _, _.
    apply process_on_working_text. now apply working_plain.
  - intros e. rewrite process_raise_iff. unfold base_prompt_of.
    destruct (PromptRequest.template_id request) as [tid|].
    + destruct tid as [|c tid]; cbn [truthy].
      * split; [discriminate |]. intros (t & [= <-] & Hne & _). contradiction.
      * split.
        -- intros H. exists (c :: tid). split; [reflexivity |].
           split; [discriminate |].
           unfold load_variables in *.
           destruct (json_loads (PromptRequest.raw_prompt request))
             as [v | e'] eqn:E.
           ++ right. exists v. split; [reflexivity | exact H].
           ++ destruct e'; cbn in H;
                try (right; eexists; split; [reflexivity | exact H]);
                injection H as <-; left; repeat split; discriminate.
        -- intros (t & [= <-] & _ & [(Hl & Hj & Ht) | (v & Hl & Hr)]).
           ++ unfold load_variables. rewrite Hl.
              destruct e; try reflexivity; contradiction.
           ++ rewrite Hl. exact Hr.
    + split; [discriminate |]. intros (t & H & _). discriminate.
Qed.

(** X13: when [process] returns, the history has grown by exactly one entry,
    written to the file, that carries the next id and the original,
    enhanced text, category and tone of the result returned; the original
    is the raw prompt of the request, also when a template was rendered, and
    the tone is the requested one. *)
Theorem process_records_what_it_returns
    (now_result now_entry : datetime) (request : PromptRequest.t)
    (self self' : HistoryManager) (result : EnhancedPrompt.t) :
  process now_result now_entry request self = Return (result, self') ->
  _entries self'
  = _entries self
    ++ [HistoryEntry.mk (max_id (_entries self) + 1)
          (EnhancedPrompt.original result) (EnhancedPrompt.enhanced result)
          (EnhancedPrompt.category result) (EnhancedPrompt.tone result)
          now_entry false]
  /\ _path self' = Dumped (_entries self')
  /\ count self' = (count self + 1)%Z
  /\ EnhancedPrompt.original result = PromptRequest.raw_prompt request
  /\ EnhancedPrompt.tone result = PromptRequest.tone request
  /\ EnhancedPrompt.timestamp result = now_result.
Proof.
  intros H.
  destruct (base_prompt_of request) as [text | e] eqn:E.
  - rewrite (process_on_base _ _ _ _ _ E) in H. injection H as <- <-.
    destruct (outcome_fields now_result request text) as (Ho & Ht & Hts).
    split; [| split; [reflexivity | split; [| auto]]].
    + unfold add. cbn [snd _save _entries]. now rewrite Ho, Ht.
    + unfold count, add. cbn [snd _save _entries].
      rewrite length_app. cbn [length]. lia.
  - apply (proj2 (process_raise_iff now_result now_entry request self e)) in E.
    rewrite E in H. discriminate.
Qed.

(** X14: [process] on a prompt that is JSON, with a registered template.
    When the prompt parses to a dictionary whose values for the declared
    variables are texts or missing, the template is rendered on it and the
    request is processed on the rendering; when some declared variable has a
    value that is not a text, [TypeError] comes out of [process]; and when
    the prompt parses to anything but a dictionary, [AttributeError] does.
    Nothing is stored when an error comes out. *)
Theorem process_on_a_json_prompt
    (now_result now_entry : datetime) (request : PromptRequest.t)
    (self : HistoryManager) (template_id : str) (tmpl : TemplateInfo.t)
    (variables : pyobj) :
  PromptRequest.template_id request = Some template_id ->
  TEMPLATES !! template_id = Some tmpl ->
  json_loads (PromptRequest.raw_prompt request) = Return variables ->
  match variables with
  | PyDict d =>
      if forallb (text_or_missing d) (TemplateInfo.variables tmpl)
      then exists text,
             render_template template_id variables = Return text
             /\ process now_result now_entry request self
                = Return
                    (outcome now_result request text,
                     snd (add now_entry (PromptRequest.raw_prompt request)
                            (EnhancedPrompt.enhanced
                               (outcome now_result request text))
                            (EnhancedPrompt.category
                               (outcome now_result request text))
                            (PromptRequest.tone request) self))
      else process now_result now_entry request self = Raise TypeError
  | _ => process now_result now_entry request self = Raise AttributeError
  end.
Proof.
  intros Htid Hknown Hloads.
  destruct (known_declares _ _ Hknown) as [Hne _].
  assert (base_prompt_of request = render_template template_id variables)
    as Hbase.
  { unfold base_prompt_of, load_variables. rewrite Htid, Hloads.
    destruct template_id; [contradiction | reflexivity]. }
  destruct variables;
    try (apply process_raise_iff; rewrite Hbase;
         apply (render_not_dict _ _ _ Hknown); discriminate).
  pose proof (render_dict template_id tmpl d Hknown) as Hr.
  destruct (forallb (text_or_missing d) (TemplateInfo.variables tmpl)).
  - destruct Hr as [text Hr]. exists text. split; [exact Hr |].
    apply process_on_base. now rewrite Hbase.
  - apply process_raise_iff. now rewrite Hbase.
Qed.

End WithRuntime.

Lemma process_records_what_it_returns_witness :
  let request := Samples.plain_request in
  let self := Samples.no_history in
  let result := outcome (rt := Samples.ascii_runtime) 5%Z request
                  (PromptRequest.raw_prompt request) in
  let self' := snd (add 6%Z (PromptRequest.raw_prompt request)
                      (EnhancedPrompt.enhanced result)
                      (EnhancedPrompt.category result)
                      (PromptRequest.tone request) self) in
  _entries self'
  = _entries self
    ++ [HistoryEntry.mk (max_id (_entries self) + 1)
          (EnhancedPrompt.original result) (EnhancedPrompt.enhanced result)
          (EnhancedPrompt.category result) (EnhancedPrompt.tone result)
          6%Z false]
  /\ _path self' = Dumped (_entries self')
  /\ count self' = (count self + 1)%Z
  /\ EnhancedPrompt.original result = PromptRequest.raw_prompt request
  /\ EnhancedPrompt.tone result = PromptRequest.tone request
  /\ EnhancedPrompt.timestamp result = 5%Z.
Proof.
  exact (process_records_what_it_returns (rt := Samples.ascii_runtime)
           5%Z 6%Z Samples.plain_request Samples.no_history _ _
           eq_refl).
Defined.

Lemma process_on_a_json_prompt_witness :
  exists text,
    render_template (py "code-write") (mapping Samples.go_variables)
    = Return text
    /\ process (rt := Samples.ascii_runtime) 5%Z 6%Z MoreSamples.json_request
         Samples.no_history
       = Return
           (outcome (rt := Samples.ascii_runtime) 5%Z
              MoreSamples.json_request text,
            snd (add 6%Z Samples.go_document
                   (EnhancedPrompt.enhanced
                      (outcome (rt := Samples.ascii_runtime) 5%Z
                         MoreSamples.json_request text))
                   (EnhancedPrompt.category
                      (outcome (rt := Samples.ascii_runtime) 5%Z
                         MoreSamples.json_request text))
                   technical Samples.no_history)).
Proof.
  exact (process_on_a_json_prompt (rt := Samples.ascii_runtime) 5%Z 6%Z
           MoreSamples.json_request Samples.no_history
           (py "code-write") code_write (mapping Samples.go_variables)
           eq_refl eq_refl eq_refl).
Defined.

End EngineMore.

